(** * evidently.ui.workspace.remote: the remote workspace client

    A shallow embedding of [src/evidently/ui/workspace/remote.py]: the
    transport ([RemoteBase]), the metadata adapter
    ([RemoteMetadataStorage]) and the workspace facade
    ([RemoteWorkspaceView]).

    Python dictionaries are finite maps.  The two mappings the module
    mutates in place (the [headers] and the [body] arguments of
    [_prepare_request]) live in a store and are passed by reference, so
    that aliasing with the caller's objects is visible; [query_params] and
    [cookies] are only read and are passed by value.  Exceptions and the
    store are threaded by a small state-and-error monad; the remote
    service is a function from the requests seen so far and the current
    request to an outcome. *)

From Stdlib Require Import ZArith String List Bool Ascii DecimalString DecimalZ.
From stdpp Require Import base option gmap strings list fin_maps.

Import ListNotations.
#[local] Set Warnings "-register-all".
#[local] Set Warnings "-notation-overridden".
#[local] Set Warnings "-notation-incompatible-prefix".
Local Open Scope string_scope.
Local Open Scope Z_scope.

(** ** Values decoded from the wire *)

(** What [response.json()] returns.  A number is kept as its literal. *)
Inductive JSON : Type :=
| JNull
| JBool (b : bool)
| JNum (lit : string)
| JStr (s : string)
| JArr (items : list JSON)
| JObj (members : list (string * JSON)).

(** A value stored in a request body mapping: plain data, or an instance
    of [io.IOBase]. *)
Inductive Field : Type :=
| Plain (j : JSON)
| Stream (fd : nat).

(** [isinstance(v, io.IOBase)] *)
Definition is_IOBase (v : Field) : bool :=
  match v with Stream _ => true | Plain _ => false end.

(** The payload of a response: text that parses as JSON, or not. *)
Inductive Content : Type :=
| NotJSON (text : string)
| IsJSON (j : JSON).

(** The response that [Session.send] hands back to the module, by the two
    things the module reads from it: [status_code] and [json()].  It is
    the last response of the exchange: [Session.send] follows redirects
    itself, and the responses on the way, like every header of a
    response, are never looked at by the module. *)
Record Response := { status_code : Z; content : Content }.

(** ** Exceptions

    The classes that can reach the [except] clauses of the module.  The
    module's [HTTPError] is imported from [urllib.error] (line 16);
    [requests] raises its own [requests.exceptions.HTTPError], an
    unrelated class.  [RequestException cls] is any other exception of
    [requests] raised while a request is prepared and sent, by the name
    of its class ([Timeout], [TooManyRedirects], [MissingSchema],
    [InvalidURL], [InvalidHeader], ...). *)
Inductive Exn : Type :=
| EvidentlyServiceError (details : JSON)
| ProjectNotFound
| RequestsHTTPError (response : Response)
| RequestsConnectionError
| UrllibHTTPError (response_attr : option Response)
| RequestsJSONDecodeError
| ValidationError
| KeyError (key : string)
| TypeError
| AttributeError
| AssertionError
| NotImplementedError
| ValueError (msg : string) (cause : Exn)
| RequestException (cls : string).

(** The classes of [requests.exceptions] that also derive from
    [ValueError]. *)
Definition requests_value_errors : list string :=
  ["MissingSchema"; "InvalidSchema"; "InvalidURL"; "InvalidProxyURL";
   "InvalidHeader"].

(** [isinstance(e, ValueError)]: [requests]' [JSONDecodeError] derives
    from [json.JSONDecodeError], which derives from [ValueError], and so
    does pydantic's [ValidationError]. *)
Definition is_ValueError (e : Exn) : bool :=
  match e with
  | RequestsJSONDecodeError | ValidationError | ValueError _ _ => true
  | RequestException cls =>
      existsb (fun name => String.eqb name cls) requests_value_errors
  | _ => false
  end.

(** [isinstance(e, HTTPError)] for the [HTTPError] of line 16. *)
Definition is_HTTPError (e : Exn) : bool :=
  match e with UrllibHTTPError _ => true | _ => false end.

(** [isinstance(e, JSONDecodeError)] for [json.JSONDecodeError] (line 6),
    the base of the error [response.json()] raises. *)
Definition is_JSONDecodeError (e : Exn) : bool :=
  match e with RequestsJSONDecodeError => true | _ => false end.

Definition is_KeyError (e : Exn) : bool :=
  match e with KeyError _ => true | _ => false end.

Definition is_AssertionError (e : Exn) : bool :=
  match e with AssertionError => true | _ => false end.

Definition is_AttributeError (e : Exn) : bool :=
  match e with AttributeError => true | _ => false end.

Inductive Result (A : Type) : Type :=
| Ok (a : A)
| Raise (e : Exn).
Arguments Ok {A} a.
Arguments Raise {A} e.

(** ** Python operations on decoded values *)

Fixpoint assoc (k : string) (ms : list (string * JSON)) : option JSON :=
  match ms with
  | [] => None
  | (k', v) :: ms' => if String.eqb k k' then Some v else assoc k ms'
  end.

(** [data[k]] *)
Definition getitem (data : JSON) (k : string) : Result JSON :=
  match data with
  | JObj ms => match assoc k ms with
               | Some v => Ok v
               | None => Raise (KeyError k)
               end
  | _ => Raise TypeError
  end.

Fixpoint is_substring (k s : string) : bool :=
  match s with
  | EmptyString => String.prefix k EmptyString
  | String _ s' => String.prefix k s || is_substring k s'
  end.

(** [v == s] for a string constant [s] *)
Definition eq_str (v : JSON) (s : string) : bool :=
  match v with JStr s' => String.eqb s' s | _ => false end.

(** [k in data] *)
Definition contains (k : string) (data : JSON) : Result bool :=
  match data with
  | JObj ms => Ok (match assoc k ms with Some _ => true | None => false end)
  | JArr items => Ok (existsb (fun j => eq_str j k) items)
  | JStr s => Ok (is_substring k s)
  | _ => Raise TypeError
  end.

(** [response.json()] *)
Definition json (r : Response) : Result JSON :=
  match content r with
  | IsJSON j => Ok j
  | NotJSON _ => Raise RequestsJSONDecodeError
  end.

(** [response.raise_for_status()] of [requests]: an error for the 4xx
    and 5xx classes. *)
Definition raise_for_status (r : Response) : Result unit :=
  if (400 <=? status_code r) && (status_code r <? 600)
  then Raise (RequestsHTTPError r)
  else Ok tt.

(** ** Requests *)

(** References into the store. *)
Abbreviation loc := positive (only parsing).

(** The [data] argument of a [Request]. *)
Inductive Data : Type :=
| NoData
| DataBytes (payload : string)
| DataDict (body : loc).

(** A [requests.Request]: [headers] and a form [data] refer to mappings
    in the store. *)
Record Request := {
  method : string;
  url : string;
  params : option (gmap string string);
  data : Data;
  files : option (gmap string Field);
  headers : loc;
  cookies : gmap string string;
}.

(** The body of a request: none, the encoded bytes, or the form fields
    and the file parts. *)
Inductive WireBody : Type :=
| WNoBody
| WBytes (payload : string)
| WForm (fields : gmap string Field) (parts : option (gmap string Field)).

(** The request as the module hands it to the library on line 131,
    [s.send(request.prepare())]: the fields of the [Request] the module
    built, read when [prepare()] is called.  What the library does with
    them behind that line is not part of the record: [prepare()]
    normalises the method, encodes the URL and the query, and adds
    headers of its own ([Content-Length], the cookie header), and
    [send] may follow redirects. *)
Record PreparedRequest := {
  p_method : string;
  p_url : string;
  p_params : gmap string string;
  p_headers : gmap string string;
  p_cookies : gmap string string;
  p_body : WireBody;
}.

(** What line 131 gives for a request: the response that comes back in
    the end, or an exception of the library.  [NetworkFailure] is
    [requests.exceptions.ConnectionError]; [LibraryFailure cls] is any
    other exception of the library, raised by [prepare()] (a URL without
    scheme, an invalid header) or by [send] (a timeout, too many
    redirects). *)
Inductive Outcome : Type :=
| Reply (r : Response)
| NetworkFailure
| LibraryFailure (cls : string).

(** ** The store and the monad *)

(** [sent] is the log of the requests the module has handed to the
    library on line 131, in order: one entry for each time that line is
    reached, whatever the library makes of the request. *)
Record World := {
  headers_heap : gmap loc (gmap string string);
  body_heap : gmap loc (gmap string Field);
  sent : list PreparedRequest;
}.

Definition M (A : Type) : Type := World -> Result A * World.

Definition ret {A} (a : A) : M A := fun w => (Ok a, w).

Definition raise {A} (e : Exn) : M A := fun w => (Raise e, w).

Definition bind {A B} (m : M A) (f : A -> M B) : M B :=
  fun w => match m w with
           | (Ok a, w') => f a w'
           | (Raise e, w') => (Raise e, w')
           end.

(** [try: m except: handler] *)
Definition try_except {A} (m : M A) (handler : Exn -> M A) : M A :=
  fun w => match m w with
           | (Ok a, w') => (Ok a, w')
           | (Raise e, w') => handler e w'
           end.

Definition lift {A} (r : Result A) : M A := fun w => (r, w).

Declare Scope py_scope.
Delimit Scope py_scope with py.
Notation "'let*' x ':=' m 'in' f" := (bind m (fun x => f))
  (at level 10, x name, m at level 100, f at level 200) : py_scope.
Notation "m ';;' f" := (bind m (fun _ => f))
  (at level 100, f at level 200, right associativity) : py_scope.
Local Open Scope py_scope.

Definition upd_headers_heap
    (f : gmap loc (gmap string string) -> gmap loc (gmap string string))
    (w : World) : World :=
  {| headers_heap := f (headers_heap w);
     body_heap := body_heap w;
     sent := sent w |}.

Definition upd_body_heap
    (f : gmap loc (gmap string Field) -> gmap loc (gmap string Field))
    (w : World) : World :=
  {| headers_heap := headers_heap w;
     body_heap := f (body_heap w);
     sent := sent w |}.

Definition upd_sent (f : list PreparedRequest -> list PreparedRequest)
    (w : World) : World :=
  {| headers_heap := headers_heap w;
     body_heap := body_heap w;
     sent := f (sent w) |}.

(** [{}] for a headers mapping *)
Definition new_headers : M loc :=
  fun w =>
    let l := fresh (dom (headers_heap w)) in
    (Ok l, upd_headers_heap <[l := ∅]> w).

(** a new body mapping holding [d] *)
Definition new_body (d : gmap string Field) : M loc :=
  fun w =>
    let l := fresh (dom (body_heap w)) in
    (Ok l, upd_body_heap <[l := d]> w).

(** A reference that does not point into the store reads as an empty
    mapping; the callers of the module always pass live objects. *)
Definition read_headers (l : loc) : M (gmap string string) :=
  fun w => (Ok (default ∅ (headers_heap w !! l)), w).

Definition read_body (l : loc) : M (gmap string Field) :=
  fun w => (Ok (default ∅ (body_heap w !! l)), w).

(** [headers[k] = v] on the mapping at [l] *)
Definition setitem_headers (l : loc) (k v : string) : M unit :=
  fun w =>
    (Ok tt,
     upd_headers_heap <[l := <[k := v]> (default ∅ (headers_heap w !! l))]> w).

Definition write_body (l : loc) (d : gmap string Field) : M unit :=
  fun w => (Ok tt, upd_body_heap <[l := d]> w).

(** ** Domain objects and collaborators outside this module *)

(** Identifiers are UUIDs; each is represented by its canonical text,
    which is what [str(...)] and the f-strings of the module produce. *)
Definition ProjectID := string.
Definition SnapshotID := string.
Definition TeamID := string.

(** Modelled from the spec: [evidently.ui.base.Project] is declared
    outside this module; the data model gives it an identity, display
    attributes and an owning team reference. *)
Record Project := {
  Project_id : ProjectID;
  Project_name : string;
  Project_team_id : option TeamID;
}.

(** Modelled from the spec: [evidently.ui.base.SnapshotMetadata] is
    declared outside this module; it has an identity and a back-reference
    to its parent project, unset until the value is bound. *)
Record SnapshotMetadata := {
  SnapshotMetadata_id : SnapshotID;
  _project : option Project;
}.

(** Modelled from the spec: [SnapshotMetadata.bind] is declared outside
    this module; binding attaches the given parent project and hands the
    same snapshot metadata back. *)
Definition SnapshotMetadata_bind (sm : SnapshotMetadata) (project : Project)
  : SnapshotMetadata :=
  {| SnapshotMetadata_id := SnapshotMetadata_id sm; _project := Some project |}.

(** [Team] and [User] are supplied by the caller; [team.id] may be
    [None]. *)
Record Team := { Team_id : option TeamID }.
Record User := { User_id : string }.

(** Modelled from the spec: [evidently.suite.base_suite.Snapshot] is
    declared outside this module; it is an opaque payload with an
    identity, only ever forwarded as a request body. *)
Record Snapshot := {
  Snapshot_id : SnapshotID;
  Snapshot_payload : JSON;
}.

Definition BlobID := string.

(** Modelled from the spec: [evidently.ui.base.BlobMetadata] is declared
    outside this module; it is an identity and a size. *)
Record BlobMetadata := {
  BlobMetadata_id : BlobID;
  BlobMetadata_size : Z;
}.

(** What the module takes from libraries and from the rest of the
    package: the functions it calls and the constants it imports. *)
Class Library := {
  (** [urllib.parse.urljoin] *)
  urljoin : string -> string -> string;
  (** [json.dumps(body, allow_nan=True, cls=NumpyEncoder).encode("utf8")] *)
  json_dumps : gmap string Field -> Result string;
  (** the validators behind [parse_obj_as(Project, _)] and
      [parse_obj_as(SnapshotMetadata, _)]; [None] is a validation error *)
  parse_Project : JSON -> option Project;
  parse_SnapshotMetadata : JSON -> option SnapshotMetadata;
  (** [project.dict()] *)
  Project_dict : Project -> gmap string Field;
  (** [evidently.ui.type_aliases.ZERO_UUID] *)
  ZERO_UUID : TeamID;
  (** [evidently.ui.storage.common.SECRET_HEADER_NAME] *)
  SECRET_HEADER_NAME : string;
  (** [evidently.ui.api.service.EVIDENTLY_APPLICATION_NAME] *)
  EVIDENTLY_APPLICATION_NAME : string;
}.

(** What stands behind line 131: the library and the remote service.
    It gives the outcome for a request, given the requests handed over
    before. *)
Class Remote := server : list PreparedRequest -> PreparedRequest -> Outcome.

(** [snapshot.dict()] *)
Class SnapshotCodec := Snapshot_dict : Snapshot -> gmap string Field.

(** The validator of [List[T]]: a JSON array whose items all validate. *)
Definition List_ {T} (model : JSON -> option T) (obj : JSON) : option (list T) :=
  match obj with
  | JArr items => mapM model items
  | _ => None
  end.

Definition parse_obj_as {T} (response_model : JSON -> option T) (obj : JSON)
  : Result T :=
  match response_model obj with
  | Some t => Ok t
  | None => Raise ValidationError
  end.

(** [Request.prepare()], as far as the module's own data goes: the
    mappings are read as they are now.  The library's own additions and
    its refusals are part of the outcome of [send]. *)
Definition prepare (r : Request) : M PreparedRequest :=
  fun w =>
    (Ok {| p_method := method r;
           p_url := url r;
           p_params := default ∅ (params r);
           p_headers := default ∅ (headers_heap w !! headers r);
           p_cookies := cookies r;
           p_body := match data r with
                     | NoData => WNoBody
                     | DataBytes payload => WBytes payload
                     | DataDict b => WForm (default ∅ (body_heap w !! b)) (files r)
                     end |}, w).

(** [Session().send(p)]: the request is recorded in [sent], and the
    library's outcome is the response returned or the exception raised. *)
Definition send {remote : Remote} (p : PreparedRequest) : M Response :=
  fun w =>
    let w' := upd_sent (fun log => (log ++ [p])%list) w in
    match server (sent w) p with
    | Reply r => (Ok r, w')
    | NetworkFailure => (Raise RequestsConnectionError, w')
    | LibraryFailure cls => (Raise (RequestException cls), w')
    end.

(** ** class RemoteBase *)

(** The methods a call through [self] resolves to.  [self.get_url()],
    [self._prepare_request(...)] and [self.get_project(...)] are looked up
    on the class of the instance, so a subclass may supply its own. *)
Class GetUrl (Self : Type) := self_get_url : Self -> Result string.

Class PrepareRequest (Self : Type) :=
  self_prepare_request :
    Self -> string -> string -> option (gmap string string) -> option loc ->
    option (gmap string string) -> option loc -> bool -> M Request.

Class GetProject (Self : Type) :=
  self_get_project : Self -> ProjectID -> M (option Project).

(** [headers or {}]: an absent or an empty mapping gives a new one. *)
Definition or_new_headers (headers : option loc) : M loc :=
  match headers with
  | None => new_headers
  | Some l =>
      let* d := read_headers l in
      if bool_decide (d = ∅) then new_headers else ret l
  end.

(** The return type of [_request], after its two [@overload]s. *)
Definition returns (T : Type) (response_model : option (JSON -> option T)) : Type :=
  match response_model with
  | Some _ => T
  | None => Response
  end.

Module RemoteBase.
Section methods.
Context {library : Library} {remote : Remote}.
Context {Self : Type} `{!GetUrl Self, !PrepareRequest Self}.

Definition get_url (self : Self) : Result string := Raise NotImplementedError.

Definition _prepare_request (self : Self) (path method : string)
    (query_params : option (gmap string string)) (body : option loc)
    (cookies : option (gmap string string)) (headers : option loc)
    (form_data : bool) : M Request :=
  let cookies := default ∅ cookies in
  let* headers := or_new_headers headers in
  let* data_files :=
    match body with
    | Some b =>
        if form_data then
          let* d := read_body b in
          write_body b (filter (fun kv => is_IOBase kv.2 = false) d) ;;
          ret (DataDict b, Some (filter (fun kv => is_IOBase kv.2 = true) d))
        else
          setitem_headers headers "Content-Type" "application/json" ;;
          let* d := read_body b in
          let* payload := lift (json_dumps d) in
          ret (DataBytes payload, None)
    | None => ret (NoData, None)
    end in
  let* base := lift (self_get_url self) in
  ret {| method := method;
         url := urljoin base path;
         params := query_params;
         data := data_files.1;
         files := data_files.2;
         headers := headers;
         cookies := cookies |}.

(** Lines 133-138: the inspection of an error response. *)
Definition inspect_error (response : Response) : M unit :=
  if status_code response >=? 400 then
    try_except
      (let* j := lift (json response) in
       let* details := lift (getitem j "detail") in
       raise (EvidentlyServiceError details))
      (fun e => if is_ValueError e then ret tt else raise e)
  else ret tt.

Definition _request {T : Type} (self : Self) (path method : string)
    (query_params : option (gmap string string)) (body : option loc)
    (response_model : option (JSON -> option T))
    (cookies : option (gmap string string)) (headers : option loc)
    (form_data : bool) : M (returns T response_model) :=
  let* request :=
    self_prepare_request self path method query_params body cookies headers form_data in
  let* prepared := prepare request in
  let* response := send prepared in
  inspect_error response ;;
  lift (raise_for_status response) ;;
  match response_model return M (returns T response_model) with
  | Some model =>
      let* j := lift (json response) in
      lift (parse_obj_as model j)
  | None => ret response
  end.
End methods.
End RemoteBase.

(** ** class RemoteMetadataStorage(MetadataStorage, RemoteBase) *)

Record RemoteMetadataStorage := {
  base_url : string;
  secret : option string;
}.

Module RemoteMetadataStorage.

Definition get_url (self : RemoteMetadataStorage) : Result string :=
  Ok (base_url self).

#[export] Instance RemoteMetadataStorage_get_url
  : GetUrl RemoteMetadataStorage := get_url.

Definition _prepare_request {library : Library} (self : RemoteMetadataStorage)
    (path method : string)
    (query_params : option (gmap string string)) (body : option loc)
    (cookies : option (gmap string string)) (headers : option loc)
    (form_data : bool) : M Request :=
  let* r :=
    RemoteBase._prepare_request self path method query_params body cookies
      headers form_data in
  match secret self with
  | Some s =>
      let '{| headers := r_headers |} := r in
      setitem_headers r_headers SECRET_HEADER_NAME s
  | None => ret tt
  end ;;
  ret r.

#[export] Instance RemoteMetadataStorage_prepare_request {library : Library}
  : PrepareRequest RemoteMetadataStorage := _prepare_request.

Section operations.
Context {library : Library} {remote : Remote}.
Context {Self : Type} `{!PrepareRequest Self, !GetProject Self}.
Context {codec : SnapshotCodec}.

Definition add_project (self : Self) (project : Project) (user : User)
    (team : option Team) : M Project :=
  let params : gmap string string := ∅ in
  let params :=
    match team with
    | Some t =>
        match Team_id t with
        | Some tid =>
            if bool_decide (tid ≠ ZERO_UUID)
            then <["team_id" := tid]> params
            else params
        | None => params
        end
    | None => params
    end in
  let* body := new_body (Project_dict project) in
  RemoteBase._request self "/api/projects" "POST" (Some params) (Some body)
    (Some parse_Project) None None false.

(** [e.response] on a caught exception *)
Definition response_of (e : Exn) : Result Response :=
  match e with
  | UrllibHTTPError (Some r) => Ok r
  | RequestsHTTPError r => Ok r
  | _ => Raise AttributeError
  end.

Definition get_project (self : Self) (project_id : ProjectID)
  : M (option Project) :=
  try_except
    (let* project :=
       RemoteBase._request self ("/api/projects/" +:+ project_id +:+ "/info")
         "GET" None None (Some parse_Project) None None false in
     ret (Some project))
    (fun e =>
       if is_HTTPError e then
         try_except
           (let* response := lift (response_of e) in
            let* data := lift (json response) in
            let* has_detail := lift (contains "detail" data) in
            let* not_found :=
              if has_detail : bool then
                let* detail := lift (getitem data "detail") in
                ret (eq_str detail "project not found")
              else ret false in
            if not_found : bool then ret None else raise e)
           (fun e' =>
              if is_ValueError e' || is_AttributeError e'
              then raise e
              else raise e')
       else raise e).

Definition delete_project (self : Self) (project_id : ProjectID) : M Response :=
  RemoteBase._request (T := Empty_set) self ("/api/projects/" +:+ project_id)
    "DELETE" None None None None None false.

Definition list_projects (self : Self) (project_ids : option (gset ProjectID))
  : M (list Project) :=
  RemoteBase._request self "/api/projects" "GET" None None
    (Some (List_ parse_Project)) None None false.

Definition add_snapshot (self : Self) (project_id : ProjectID)
    (snapshot : Snapshot) (blob : BlobMetadata) : M Response :=
  let* body := new_body (Snapshot_dict snapshot) in
  RemoteBase._request (T := Empty_set) self
    ("/api/projects/" +:+ project_id +:+ "/snapshots") "POST" None (Some body)
    None None None false.

Definition delete_snapshot (self : Self) (project_id : ProjectID)
    (snapshot_id : SnapshotID) : M Response :=
  RemoteBase._request (T := Empty_set) self
    ("/api/projects/" +:+ project_id +:+ "/" +:+ snapshot_id) "DELETE"
    None None None None None false.

Definition search_project (self : Self) (project_name : string)
    (project_ids : option (gset ProjectID)) : M (list Project) :=
  RemoteBase._request self ("/api/projects/search/" +:+ project_name) "GET"
    None None (Some (List_ parse_Project)) None None false.

Definition list_snapshots (self : Self) (project_id : ProjectID)
    (include_reports include_test_suites : bool)
  : M (list SnapshotMetadata) :=
  let* project := self_get_project self project_id in
  match project with
  | None => raise ProjectNotFound
  | Some project =>
      let* sms :=
        RemoteBase._request self
          ("/api/projects/" +:+ project_id +:+ "/snapshots") "GET" None None
          (Some (List_ parse_SnapshotMetadata)) None None false in
      ret (map (fun sm => SnapshotMetadata_bind sm project) sms)
  end.

Definition get_snapshot_metadata (self : Self) (project_id : ProjectID)
    (snapshot_id : SnapshotID) : M SnapshotMetadata :=
  let* project := self_get_project self project_id in
  match project with
  | None => raise ProjectNotFound
  | Some project =>
      let* sm :=
        RemoteBase._request self
          ("/api/projects/" +:+ project_id +:+ "/" +:+ snapshot_id +:+ "/metadata")
          "GET" None None (Some parse_SnapshotMetadata) None None false in
      ret (SnapshotMetadata_bind sm project)
  end.

Definition update_project (self : Self) (project : Project) : M Project :=
  let* body := new_body (Project_dict project) in
  RemoteBase._request self
    ("/api/projects/" +:+ Project_id project +:+ "/info") "POST" None
    (Some body) (Some parse_Project) None None false.

Definition reload_snapshots (self : Self) (project_id : ProjectID) : M unit :=
  RemoteBase._request (T := Empty_set) self
    ("/api/projects/" +:+ project_id +:+ "/reload") "GET"
    None None None None None false ;;
  ret tt.
End operations.

#[export] Instance RemoteMetadataStorage_get_project
    {library : Library} {remote : Remote}
  : GetProject RemoteMetadataStorage := get_project.

End RemoteMetadataStorage.
Export RemoteMetadataStorage.

(** ** class RemoteWorkspaceView(WorkspaceView) *)

Inductive NoopBlobStorage := mkNoopBlobStorage.
Inductive NoopDataStorage := mkNoopDataStorage.
Inductive NoopAuthManager := mkNoopAuthManager.

Record ProjectManager := {
  metadata : RemoteMetadataStorage;
  blob : NoopBlobStorage;
  data_storage : NoopDataStorage;
  auth : NoopAuthManager;
}.

Record RemoteWorkspaceView := {
  view_base_url : string;
  view_secret : option string;
  project_manager : ProjectManager;
}.

Module RemoteWorkspaceView.
Section methods.
Context {library : Library} {remote : Remote}.

Definition verify (self : RemoteWorkspaceView) : M unit :=
  try_except
    (let* response :=
       RemoteBase._request (T := Empty_set) (metadata (project_manager self))
         "/api/version" "GET" None None None None None false in
     let* j := lift (json response) in
     let* application := lift (getitem j "application") in
     if eq_str application EVIDENTLY_APPLICATION_NAME
     then ret tt
     else raise AssertionError)
    (fun e =>
       if is_HTTPError e || is_JSONDecodeError e || is_KeyError e
          || is_AssertionError e
       then raise (ValueError ("Evidenly API not available at "
                               +:+ view_base_url self) e)
       else raise e).

Definition __init__ (base_url : string) (secret : option string)
  : M RemoteWorkspaceView :=
  let pm := {| metadata := {| base_url := base_url; secret := secret |};
               blob := mkNoopBlobStorage;
               data_storage := mkNoopDataStorage;
               auth := mkNoopAuthManager |} in
  let self := {| view_base_url := base_url;
                 view_secret := secret;
                 project_manager := pm |} in
  verify self ;;
  ret self.

Definition create (base_url : string) : M RemoteWorkspaceView :=
  __init__ base_url None.
End methods.
End RemoteWorkspaceView.

(** ** Encoding a JSON body *)

(** Modelled from the spec: the values a request body is made of are
    declared outside this module ([project.dict()] and the like).  They
    are the Python values the standard JSON encoder knows.  A float is
    NaN, an infinity, or finite; a finite float is given by its [repr],
    which Python reads back as the same float. *)
Inductive PyFloat : Type :=
| FloatNaN
| FloatInf
| FloatNegInf
| FloatFinite (repr : string).

Inductive PyValue : Type :=
| VNone
| VBool (b : bool)
| VInt (n : Z)
| VFloat (x : PyFloat)
| VStr (s : string)
| VList (items : list PyValue)
| VDict (items : list (string * PyValue)).

(** A JSON text, up to its layout: the nesting of arrays and objects,
    and each scalar by the characters it is written with.  Separators,
    white space, the escapes inside strings and the encoding to UTF-8 are
    not part of it. *)
Inductive Doc : Type :=
| DLiteral (text : string)
| DString (s : string)
| DArray (items : list Doc)
| DObject (members : list (string * Doc)).

(** [ValueError("Out of range float values are not JSON compliant: ...")] *)
Inductive EncodeError : Type :=
| OutOfRangeFloat (x : PyFloat).

(** [str(n)] for an [int] *)
Definition int_literal (n : Z) : string := NilZero.string_of_int (Z.to_int n).

(** Modelled from the spec: [floatstr] of the standard encoder
    ([json.encoder]), which is where [allow_nan] acts.  A float that is
    not finite is written as [NaN], [Infinity] or [-Infinity] when
    [allow_nan] is set and refused otherwise; a finite float is written
    as its [repr]. *)
Definition floatstr (allow_nan : bool) (o : PyFloat) : EncodeError + string :=
  match o with
  | FloatFinite repr => inr repr
  | _ =>
      let text :=
        match o with
        | FloatNaN => "NaN"
        | FloatInf => "Infinity"
        | _ => "-Infinity"
        end in
      if allow_nan then inr text else inl (OutOfRangeFloat o)
  end.

Fixpoint traverse {A B : Type} (f : A -> EncodeError + B) (l : list A)
  : EncodeError + list B :=
  match l with
  | [] => inr []
  | a :: l' =>
      match f a with
      | inl e => inl e
      | inr b =>
          match traverse f l' with
          | inl e => inl e
          | inr bs => inr (b :: bs)
          end
      end
  end.

(** Modelled from the spec: [json.dumps(v, allow_nan=allow_nan,
    cls=NumpyEncoder)].  [NumpyEncoder] only supplies [default], which the
    encoder asks about objects it does not know; none of the values here
    is such an object. *)
Fixpoint dumps (allow_nan : bool) (v : PyValue) : EncodeError + Doc :=
  match v with
  | VNone => inr (DLiteral "null")
  | VBool b => inr (DLiteral (if b then "true" else "false"))
  | VInt n => inr (DLiteral (int_literal n))
  | VFloat x =>
      match floatstr allow_nan x with
      | inl e => inl e
      | inr text => inr (DLiteral text)
      end
  | VStr s => inr (DString s)
  | VList items =>
      match traverse (dumps allow_nan) items with
      | inl e => inl e
      | inr docs => inr (DArray docs)
      end
  | VDict items =>
      match traverse
              (fun kv : string * PyValue =>
                 match dumps allow_nan kv.2 with
                 | inl e => inl e
                 | inr doc => inr (kv.1, doc)
                 end) items with
      | inl e => inl e
      | inr members => inr (DObject members)
      end
  end.

(** Line 79, for a body of such values:
    [json.dumps(body, allow_nan=True, cls=NumpyEncoder)]. *)
Definition dumps_body (body : list (string * PyValue)) : EncodeError + Doc :=
  dumps true (VDict body).

(** The characters of a number with a fraction or an exponent. *)
Definition is_number_char (c : ascii) : bool :=
  existsb (Ascii.eqb c) (list_ascii_of_string "0123456789.eE+-").

Definition is_fraction_or_exponent_char (c : ascii) : bool :=
  Ascii.eqb c "." || Ascii.eqb c "e" || Ascii.eqb c "E".

(** A number literal with a fraction or an exponent, as the [repr] of a
    finite float is. *)
Definition is_float_literal (text : string) : bool :=
  forallb is_number_char (list_ascii_of_string text)
  && existsb is_fraction_or_exponent_char (list_ascii_of_string text).

(** Modelled from the spec: how the standard decoder ([json.scanner],
    [json.decoder]) reads a scalar that is no string: the three names,
    the three constants of [parse_constant], a number with a fraction or
    an exponent as a float, and any other number as an [int]. *)
Definition scan_literal (text : string) : option PyValue :=
  if String.eqb text "null" then Some VNone
  else if String.eqb text "true" then Some (VBool true)
  else if String.eqb text "false" then Some (VBool false)
  else if String.eqb text "NaN" then Some (VFloat FloatNaN)
  else if String.eqb text "Infinity" then Some (VFloat FloatInf)
  else if String.eqb text "-Infinity" then Some (VFloat FloatNegInf)
  else if is_float_literal text then Some (VFloat (FloatFinite text))
  else option_map (fun d => VInt (Z.of_int d)) (NilZero.int_of_string text).

(** [d[k] = v] *)
Fixpoint dict_setitem (k : string) (v : PyValue) (d : list (string * PyValue))
  : list (string * PyValue) :=
  match d with
  | [] => [(k, v)]
  | (k', v') :: d' =>
      if String.eqb k k' then (k', v) :: d' else (k', v') :: dict_setitem k v d'
  end.

(** [dict(pairs)]: a key that comes again keeps its place and takes the
    later value. *)
Definition dict_of_pairs (pairs : list (string * PyValue))
  : list (string * PyValue) :=
  fold_left (fun d kv => dict_setitem kv.1 kv.2 d) pairs [].

(** Modelled from the spec: [json.loads], as the receiving side reads the
    body. *)
Fixpoint loads (doc : Doc) : option PyValue :=
  match doc with
  | DLiteral text => scan_literal text
  | DString s => Some (VStr s)
  | DArray items => option_map VList (mapM loads items)
  | DObject members =>
      option_map (fun pairs => VDict (dict_of_pairs pairs))
        (mapM (fun kd : string * Doc =>
                 option_map (fun v => (kd.1, v)) (loads kd.2)) members)
  end.

(** The values Python can hold: the [repr] of a finite float is a number
    literal with a fraction or an exponent, and the keys of a dictionary
    are distinct. *)
Fixpoint well_formed (v : PyValue) : bool :=
  match v with
  | VFloat (FloatFinite repr) => is_float_literal repr
  | VList items => forallb well_formed items
  | VDict items =>
      bool_decide (NoDup (map fst items))
      && forallb (fun kv : string * PyValue => well_formed kv.2) items
  | _ => true
  end.

(** The characters of the literal of an [int]. *)
Definition is_int_char (c : ascii) : bool :=
  existsb (Ascii.eqb c) (list_ascii_of_string "0123456789-").

(** ** Vocabulary for the properties *)

(** The request the adapter hands to the library when it is called the
    way its own operations call [_request], without [headers] and
    [cookies]: the method, the joined URL, the query parameters,
    [Content-Type] when a JSON body is encoded and the secret header when
    a secret is configured. *)
Definition outgoing {library : Library} (self : RemoteMetadataStorage)
    (method path : string) (query_params : option (gmap string string))
    (body : option string) : PreparedRequest :=
  let content_type : gmap string string :=
    match body with
    | Some _ => <["Content-Type" := "application/json"]> ∅
    | None => ∅
    end in
  {| p_method := method;
     p_url := urljoin (base_url self) path;
     p_params := default ∅ query_params;
     p_headers := match secret self with
                  | Some s => <[SECRET_HEADER_NAME := s]> content_type
                  | None => content_type
                  end;
     p_cookies := ∅;
     p_body := match body with
               | Some payload => WBytes payload
               | None => WNoBody
               end |}.

(** The exceptions a request without a body can end in: those of the
    library while preparing and sending, those of the inspection of an
    error response, the HTTP error of [raise_for_status], and those of
    decoding and validating the answer. *)
Definition raised_by_request (e : Exn) : bool :=
  match e with
  | RequestsConnectionError | RequestException _ | EvidentlyServiceError _
  | KeyError _ | TypeError | RequestsHTTPError _ | RequestsJSONDecodeError
  | ValidationError => true
  | _ => false
  end.

(** ** A stand-in library and remote service

    Concrete collaborators on which the operations can be run: validators
    that read the [id] (and [name]) member of an object, an encoder that
    always succeeds, and services that give a fixed answer. *)
Module Stub.

Definition read_Project (j : JSON) : option Project :=
  match getitem j "id", getitem j "name" with
  | Ok (JStr i), Ok (JStr n) =>
      Some {| Project_id := i; Project_name := n; Project_team_id := None |}
  | _, _ => None
  end.

Definition read_SnapshotMetadata (j : JSON) : option SnapshotMetadata :=
  match getitem j "id" with
  | Ok (JStr i) => Some {| SnapshotMetadata_id := i; _project := None |}
  | _ => None
  end.

Definition dict_of_Project (p : Project) : gmap string Field :=
  {[ "id" := Plain (JStr (Project_id p));
     "name" := Plain (JStr (Project_name p)) ]}.

Definition library : Library := {|
  urljoin := fun base path => base +:+ path;
  json_dumps := fun _ => Ok "{...}";
  parse_Project := read_Project;
  parse_SnapshotMetadata := read_SnapshotMetadata;
  Project_dict := dict_of_Project;
  ZERO_UUID := "00000000-0000-0000-0000-000000000000";
  SECRET_HEADER_NAME := "evidently-secret";
  EVIDENTLY_APPLICATION_NAME := "Evidently UI";
|}.

(** an encoder that, like [json.dumps], refuses a mapping that holds a
    stream *)
Definition strict_dumps (d : gmap string Field) : Result string :=
  if bool_decide (map_Forall (fun _ v => is_IOBase v = false) d)
  then Ok "{...}"
  else Raise TypeError.

Definition strict_library : Library := {|
  urljoin := fun base path => base +:+ path;
  json_dumps := strict_dumps;
  parse_Project := read_Project;
  parse_SnapshotMetadata := read_SnapshotMetadata;
  Project_dict := dict_of_Project;
  ZERO_UUID := "00000000-0000-0000-0000-000000000000";
  SECRET_HEADER_NAME := "evidently-secret";
  EVIDENTLY_APPLICATION_NAME := "Evidently UI";
|}.

Definition codec : SnapshotCodec :=
  fun snapshot =>
    {[ "id" := Plain (JStr (Snapshot_id snapshot));
       "payload" := Plain (Snapshot_payload snapshot) ]}.

(** a service that answers every request with [r] *)
Definition always (r : Response) : Remote := fun _ _ => Reply r.

(** a service that cannot be reached *)
Definition unreachable : Remote := fun _ _ => NetworkFailure.

(** a service that knows one project and its snapshots, and reports the
    project under the identity [reported] *)
Definition one_project (reported : ProjectID) : Remote :=
  fun _ p =>
    if String.eqb (p_url p) "http://svc:8000/api/projects/P1/info" then
      Reply {| status_code := 200;
               content := IsJSON (JObj [("id", JStr reported);
                                        ("name", JStr "p1")]) |}
    else if String.eqb (p_url p) "http://svc:8000/api/projects/P1/snapshots" then
      Reply {| status_code := 200;
               content := IsJSON (JArr [JObj [("id", JStr "S1")];
                                        JObj [("id", JStr "S2")]]) |}
    else if String.eqb (p_url p) "http://svc:8000/api/projects/P1/S1/metadata" then
      Reply {| status_code := 200;
               content := IsJSON (JObj [("id", JStr "S1")]) |}
    else
      Reply {| status_code := 404;
               content := IsJSON (JObj [("detail", JStr "Not Found")]) |}.

(** a service that knows no project at all *)
Definition no_project : Remote :=
  always {| status_code := 404;
            content := IsJSON (JObj [("detail", JStr "project not found")]) |}.

Definition storage : RemoteMetadataStorage :=
  {| base_url := "http://svc:8000"; secret := Some "abc" |}.

Definition open_storage : RemoteMetadataStorage :=
  {| base_url := "http://svc:8000"; secret := None |}.

Definition empty_world : World :=
  {| headers_heap := ∅; body_heap := ∅; sent := [] |}.

(** a caller holding one headers mapping and one body mapping *)
Definition caller_world (caller_headers : gmap string string)
    (caller_body : gmap string Field) : World :=
  {| headers_heap := {[ 1%positive := caller_headers ]};
     body_heap := {[ 1%positive := caller_body ]};
     sent := [] |}.

(** an answer that names the expected application *)
Definition version_answer : Response :=
  {| status_code := 200;
     content := IsJSON (JObj [("application", JStr "Evidently UI")]) |}.

Definition s1 : Snapshot :=
  {| Snapshot_id := "S1"; Snapshot_payload := JNull |}.

Definition p1 : Project :=
  {| Project_id := "P1"; Project_name := "p1"; Project_team_id := None |}.

End Stub.

(** * Properties *)

(** ** Operations that go through [self] *)
Section late_bound.
Context {library : Library} {remote : Remote}.
Context {Self : Type} `{!PrepareRequest Self, !GetProject Self}.

(** C9. The filter arguments of the listing operations have no effect:
    whatever [project_ids] is given, [list_projects] (and
    [search_project], for a fixed name) runs the same way from every
    store, sending the same request and giving the same result; the same
    holds for [list_snapshots] and its two [include_*] flags. *)
Theorem listing_filters_ignored (self : Self) (w : World) :
  (forall ids1 ids2 : option (gset ProjectID),
      list_projects self ids1 w = list_projects self ids2 w) /\
  (forall (project_name : string) (ids1 ids2 : option (gset ProjectID)),
      search_project self project_name ids1 w
      = search_project self project_name ids2 w) /\
  (forall (project_id : ProjectID) (r1 t1 r2 t2 : bool),
      list_snapshots self project_id r1 t1 w
      = list_snapshots self project_id r2 t2 w).
Proof. repeat split. Qed.

(** X14. A parent lookup that raises is passed on unchanged by both
    snapshot operations, again with nothing sent after it, whatever
    [self.get_project] is bound to. *)
Lemma failed_lookup_short_circuits
    (self : Self) (project_id : ProjectID) (snapshot_id : SnapshotID)
    (include_reports include_test_suites : bool) (w w1 : World) (e : Exn) :
  self_get_project self project_id w = (Raise e, w1) ->
  list_snapshots self project_id include_reports include_test_suites w
  = (Raise e, w1) /\
  get_snapshot_metadata self project_id snapshot_id w = (Raise e, w1).
Proof.
  intros Hlookup.
  unfold list_snapshots, get_snapshot_metadata, bind.
  rewrite Hlookup. split; reflexivity.
Qed.

(** C5 (amended). Every [SnapshotMetadata] that [list_snapshots]
    returns, and the one [get_snapshot_metadata] returns, is bound to
    the project that [self.get_project] returned earlier in the same
    call.  Nothing relates that project's identity to the requested
    [project_id]. *)
Theorem snapshots_bound_to_fetched_project
    (self : Self) (project_id : ProjectID) (w : World) :
  (forall include_reports include_test_suites sms w',
      list_snapshots self project_id include_reports include_test_suites w
      = (Ok sms, w') ->
      exists project w1,
        self_get_project self project_id w = (Ok (Some project), w1) /\
        Forall (fun sm => _project sm = Some project) sms) /\
  (forall snapshot_id sm w',
      get_snapshot_metadata self project_id snapshot_id w = (Ok sm, w') ->
      exists project w1,
        self_get_project self project_id w = (Ok (Some project), w1) /\
        _project sm = Some project).
Proof.
  split.
  - intros ir its sms w'. unfold list_snapshots, bind.
    destruct (self_get_project self project_id w) as [[[project|]|e] w1];
      [|discriminate|discriminate].
    destruct (RemoteBase._request _ _ _ _ _ _ _ _ _ w1) as [[fetched|e] w2];
      [|discriminate].
    unfold ret. intros [= <- <-].
    exists project, w1. split; [reflexivity|].
    apply Forall_forall. intros sm Hin.
    apply list_elem_of_In, in_map_iff in Hin as (sm0 & <- & _).
    reflexivity.
  - intros snapshot_id sm w'. unfold get_snapshot_metadata, bind.
    destruct (self_get_project self project_id w) as [[[project|]|e] w1];
      [|discriminate|discriminate].
    destruct (RemoteBase._request _ _ _ _ _ _ _ _ _ w1) as [[fetched|e] w2];
      [|discriminate].
    unfold ret. intros [= <- <-].
    exists project, w1. split; reflexivity.
Qed.
End late_bound.

(** ** The transport *)
Section transport.
Context {library : Library} {remote : Remote}.

(** What the inspection of lines 133-138 does with an error response:
    a [detail] member gives a service error, a body that is not JSON
    falls through, and a JSON body without a usable [detail] member
    leaves the [try] with [KeyError] or [TypeError]. *)
Lemma inspect_error_cases (response : Response) (w : World) :
  400 <= status_code response ->
  RemoteBase.inspect_error response w =
  (match content response with
   | NotJSON _ => Ok tt
   | IsJSON (JObj ms) =>
       match assoc "detail" ms with
       | Some details => Raise (EvidentlyServiceError details)
       | None => Raise (KeyError "detail")
       end
   | IsJSON _ => Raise TypeError
   end, w).
Proof.
  intros Hstatus. unfold RemoteBase.inspect_error.
  assert (Hge : (status_code response >=? 400) = true)
    by (apply Z.geb_le; lia).
  rewrite Hge.
  unfold try_except, bind, lift, json, getitem, raise, ret.
  destruct (content response) as [text|[ | | | | |ms]]; simpl; try reflexivity.
  destruct (assoc "detail" ms); reflexivity.
Qed.

Lemma inspect_error_below_400 (response : Response) (w : World) :
  status_code response < 400 ->
  RemoteBase.inspect_error response w = (Ok tt, w).
Proof.
  intros Hstatus. unfold RemoteBase.inspect_error.
  destruct (status_code response >=? 400) eqn:E; [|reflexivity].
  apply Z.geb_le in E. lia.
Qed.

(** The inspection never raises the [HTTPError] of line 16. *)
Lemma inspect_error_not_HTTPError (response : Response) (w w' : World) (e : Exn) :
  RemoteBase.inspect_error response w = (Raise e, w') ->
  is_HTTPError e = false.
Proof.
  unfold RemoteBase.inspect_error, try_except, bind, lift, json, getitem,
    raise, ret.
  destruct (status_code response >=? 400); [|discriminate].
  destruct (content response) as [text|[ | | | | |ms]]; simpl;
    try (intros [= <- <-]; reflexivity); try discriminate.
  destruct (assoc "detail" ms); simpl; intros [= <- <-]; reflexivity.
Qed.

(** The inspection leaves the world as it is. *)
Lemma inspect_error_world (response : Response) (w : World) :
  (RemoteBase.inspect_error response w).2 = w.
Proof.
  unfold RemoteBase.inspect_error, try_except, bind, lift, json, getitem,
    raise, ret.
  destruct (status_code response >=? 400); [|reflexivity].
  destruct (content response) as [text|[ | | | | |ms]]; simpl; try reflexivity.
  destruct (assoc "detail" ms); reflexivity.
Qed.

(** One call of [_request] is one round trip: if the request can be
    prepared it is sent, once, and nothing else is; if it cannot, the
    failure is passed on and nothing is sent. *)
Lemma request_round_trip {Self : Type} `{!PrepareRequest Self} {T : Type}
    (self : Self) (path method : string)
    (query_params : option (gmap string string)) (body : option loc)
    (response_model : option (JSON -> option T))
    (cookies : option (gmap string string)) (headers : option loc)
    (form_data : bool) (w : World) :
  match self_prepare_request self path method query_params body cookies
          headers form_data w with
  | (Ok r, w1) =>
      exists p,
        prepare r w1 = (Ok p, w1) /\
        (RemoteBase._request self path method query_params body
           response_model cookies headers form_data w).2
        = upd_sent (fun log => (log ++ [p])%list) w1
  | (Raise e, w1) =>
      RemoteBase._request self path method query_params body response_model
        cookies headers form_data w = (Raise e, w1)
  end.
Proof.
  unfold RemoteBase._request, bind.
  destruct (self_prepare_request _ _ _ _ _ _ _ _ w) as [[r|e] w1];
    [|reflexivity].
  eexists. split; [reflexivity|].
  unfold prepare, send.
  destruct (server _ _) as [response| |cls]; [|reflexivity|reflexivity].
  match goal with
  | |- context [RemoteBase.inspect_error response ?w0] =>
      pose proof (inspect_error_world response w0) as Hworld
  end.
  destruct (RemoteBase.inspect_error response _) as [[[]|e] w2];
    simpl in Hworld; subst w2; [|reflexivity].
  unfold lift. destruct (raise_for_status response) as [[]|e]; [|reflexivity].
  destruct response_model as [model|]; [|reflexivity].
  destruct (json response) as [j|e]; [|reflexivity].
  destruct (parse_obj_as model j); reflexivity.
Qed.

(** Without a body, the adapter's [_prepare_request] cannot fail. *)
Lemma prepare_request_without_body (self : RemoteMetadataStorage)
    (path method : string) (query_params cookies : option (gmap string string))
    (headers : option loc) (form_data : bool) (w : World) :
  exists r w',
    RemoteMetadataStorage._prepare_request self path method query_params None
      cookies headers form_data w = (Ok r, w').
Proof.
  unfold RemoteMetadataStorage._prepare_request, RemoteBase._prepare_request,
    or_new_headers, bind, ret, lift, self_get_url,
    RemoteMetadataStorage_get_url, get_url, new_headers, read_headers,
    setitem_headers.
  destruct headers as [l|]; [destruct (bool_decide _)|];
    destruct (secret self); simpl; eauto.
Qed.

(** No request without a body, made through the adapter, ends in the
    [HTTPError] of line 16: the failures are those of the network, of
    the inspection, of [raise_for_status] and of decoding. *)
Lemma request_never_raises_HTTPError {T : Type} (self : RemoteMetadataStorage)
    (path method : string) (query_params cookies : option (gmap string string))
    (response_model : option (JSON -> option T))
    (headers : option loc) (form_data : bool) (w w' : World) (e : Exn) :
  RemoteBase._request self path method query_params None response_model
    cookies headers form_data w = (Raise e, w') ->
  is_HTTPError e = false.
Proof.
  unfold RemoteBase._request, bind, self_prepare_request,
    RemoteMetadataStorage_prepare_request.
  destruct (prepare_request_without_body self path method query_params
              cookies headers form_data w) as (r & w1 & ->).
  unfold prepare, send.
  destruct (server _ _) as [response| |cls];
    [|intros [= <- <-]; reflexivity|intros [= <- <-]; reflexivity].
  destruct (RemoteBase.inspect_error response _) as [[[]|e0] w2] eqn:Einspect.
  - unfold lift, raise_for_status.
    destruct (_ && _); [intros [= <- <-]; reflexivity|].
    destruct response_model as [model|]; [|discriminate].
    unfold json, parse_obj_as.
    destruct (content response); [intros [= <- <-]; reflexivity|].
    destruct (model j); [discriminate|intros [= <- <-]; reflexivity].
  - intros [= <- <-]. eapply inspect_error_not_HTTPError, Einspect.
Qed.

(** X15. [get_project] of the adapter never yields absence: the handler that
    would return [None] only runs for the [HTTPError] of line 16, which
    [_request] never raises. *)
Lemma get_project_never_absent (self : RemoteMetadataStorage)
    (project_id : ProjectID) (w : World) :
  (get_project self project_id w).1 <> Ok None.
Proof.
  unfold get_project, try_except, bind.
  destruct (RemoteBase._request _ _ _ _ _ _ _ _ _ w) as [[project|e] w1] eqn:Ereq.
  - simpl. discriminate.
  - apply request_never_raises_HTTPError in Ereq. rewrite Ereq.
    simpl. discriminate.
Qed.
End transport.

(** ** Preparing a request *)

(** Runs [RemoteBase._prepare_request] through the shapes of its body
    argument, the encoder's result and [get_url]'s result, and settles
    the parts of the store that are plainly as before. *)
Ltac prepare_cases self body form_data :=
  destruct body as [?b|]; [destruct form_data|]; simpl;
  repeat (destruct (json_dumps _)); simpl;
  destruct (self_get_url self); simpl;
  (split; [reflexivity|split; [reflexivity|]]).

Section preparing.
Context {library : Library}.

Lemma fresh_headers_not_live (w : World) (l : loc) (d : gmap string string) :
  headers_heap w !! l = Some d ->
  fresh (dom (headers_heap w)) <> l.
Proof.
  intros Hl Heq.
  apply (is_fresh (dom (headers_heap w))).
  rewrite Heq. apply elem_of_dom. eauto.
Qed.

(** C10 (amended). What [RemoteBase._prepare_request] changes in the
    store.  Nothing is sent.  With [form_data] the caller's body mapping
    loses exactly its stream-valued entries, and otherwise no body
    mapping changes.  A caller's headers mapping gains [Content-Type]
    when it is the one passed as [headers], it is not empty and a JSON
    body is encoded; every other headers mapping the caller holds, an
    empty one passed as [headers] included, reads as before. *)
Theorem prepare_request_effects {Self : Type} `{!GetUrl Self} (self : Self)
    (path method : string) (query_params : option (gmap string string))
    (body : option loc) (cookies : option (gmap string string))
    (headers : option loc) (form_data : bool) (w : World) :
  let w' := (RemoteBase._prepare_request self path method query_params body
               cookies headers form_data w).2 in
  sent w' = sent w /\
  body_heap w' =
    match body with
    | Some b =>
        if form_data
        then <[b := filter (fun kv => is_IOBase kv.2 = false)
                      (default ∅ (body_heap w !! b))]> (body_heap w)
        else body_heap w
    | None => body_heap w
    end /\
  forall (l : loc) (d : gmap string string),
    headers_heap w !! l = Some d ->
    headers_heap w' !! l =
      Some (if bool_decide (headers = Some l /\ d <> ∅ /\ is_Some body
                            /\ form_data = false)
            then <["Content-Type" := "application/json"]> d
            else d).
Proof.
  unfold RemoteBase._prepare_request, or_new_headers, bind, ret, lift,
    new_headers, read_headers, read_body, write_body, setitem_headers.
  destruct headers as [l0|]; simpl.
  2:{ (* no mapping passed: the request gets a new one *)
      prepare_cases self body form_data; intros l d Hl.
      all: rewrite ?lookup_insert_ne by (by eapply fresh_headers_not_live).
      all: exact Hl. }
  destruct (headers_heap w !! l0) as [d0|] eqn:Hl0; simpl.
  2:{ rewrite bool_decide_eq_true_2 by reflexivity.
      prepare_cases self body form_data; intros l d Hl.
      all: rewrite ?lookup_insert_ne by (by eapply fresh_headers_not_live).
      all: rewrite Hl; f_equal.
      all: rewrite bool_decide_eq_false_2; [reflexivity|].
      all: intros (? & ?); simplify_eq. }
  destruct (bool_decide (d0 = ∅)) eqn:Hempty.
  { (* an empty mapping passed: falsy, so the request gets a new one *)
    apply bool_decide_eq_true in Hempty. subst d0.
    prepare_cases self body form_data; intros l d Hl.
    all: rewrite ?lookup_insert_ne by (by eapply fresh_headers_not_live).
    all: rewrite Hl; f_equal.
    all: rewrite bool_decide_eq_false_2; [reflexivity|].
    all: intros (? & ? & ?); simplify_eq. }
  (* a non-empty mapping passed: the request shares it *)
  apply bool_decide_eq_false in Hempty.
  prepare_cases self body form_data; intros l d Hl.
  all: destruct (decide (l = l0)) as [->|Hne].
  all: rewrite ?lookup_insert_eq, ?lookup_insert_ne by done.
  all: rewrite ?Hl0 in *; simplify_eq/=.
  all: rewrite ?Hl; f_equal; case_bool_decide as Hc; try reflexivity.
  all: try (destruct Hc as (? & ? & Hs & ?); simplify_eq;
            try (by destruct Hs as [? ?])).
  all: try (exfalso; apply Hc; repeat split; eauto).
Qed.
End preparing.

(** ** The secret header *)
Section secret_header.
Context {library : Library}.

(** The adapter's [_prepare_request] and the plain one differ in one
    thing only.  Without a secret the two are the same
    computation.  With a secret [s], the adapter fails exactly when the
    plain one does; otherwise it returns the same request, in the same
    world but for the secret header, which is set to [s] on the
    request's headers mapping and so goes out with that value. *)
Theorem secret_header_only_difference (base : string)
    (path method : string) (query_params : option (gmap string string))
    (body : option loc) (cookies : option (gmap string string))
    (caller_headers : option loc) (form_data : bool) (w : World) :
  let plain (self : RemoteMetadataStorage) :=
    RemoteBase._prepare_request self path method query_params body cookies
      caller_headers form_data w in
  let adapter (self : RemoteMetadataStorage) :=
    RemoteMetadataStorage._prepare_request self path method query_params
      body cookies caller_headers form_data w in
  adapter {| base_url := base; secret := None |}
  = plain {| base_url := base; secret := None |} /\
  forall s : string,
    let self := {| base_url := base; secret := Some s |} in
    match plain self with
    | (Ok r, w1) =>
        let w' :=
          upd_headers_heap
            <[headers r :=
                <[SECRET_HEADER_NAME := s]>
                  (default ∅ (headers_heap w1 !! headers r))]> w1 in
        adapter self = (Ok r, w') /\
        exists p, prepare r w' = (Ok p, w') /\
                  p_headers p !! SECRET_HEADER_NAME = Some s
    | (Raise e, w1) => adapter self = (Raise e, w1)
    end.
Proof.
  intros plain adapter. subst plain adapter.
  unfold RemoteMetadataStorage._prepare_request, bind. simpl. split.
  - destruct (RemoteBase._prepare_request _ _ _ _ _ _ _ _ w) as [[r|e] w1];
      reflexivity.
  - intros s.
    destruct (RemoteBase._prepare_request _ _ _ _ _ _ _ _ w) as [[r|e] w1];
      [|reflexivity].
    destruct r as [m u ps dt fs hs cs]. simpl.
    split; [reflexivity|].
    eexists. split; [reflexivity|].
    simpl. rewrite lookup_insert_eq. simpl. apply lookup_insert_eq.
Qed.
End secret_header.

(** ** Adapter operations on the wire *)
Section adapter.
Context {library : Library} {remote : Remote}.

(** C7. [add_project] sends one request, a POST to the projects
    collection whose body is the encoded project, and its query carries
    [team_id] exactly when a team is given whose identity is neither
    [None] nor the zero identity; the value is then that identity. *)
Theorem add_project_request (self : RemoteMetadataStorage)
    (project : Project) (user : User) (team : option Team) (w : World)
    (payload : string) :
  json_dumps (Project_dict project) = Ok payload ->
  exists p,
    sent (add_project self project user team w).2 = (sent w ++ [p])%list /\
    p_method p = "POST" /\
    p_url p = urljoin (base_url self) "/api/projects" /\
    p_body p = WBytes payload /\
    forall v : string,
      p_params p !! "team_id" = Some v <->
      exists t, team = Some t /\ Team_id t = Some v /\ v <> ZERO_UUID.
Proof.
  intros Hdumps. unfold add_project, bind, new_body. cbv beta iota zeta.
  match goal with
  | |- context [RemoteBase._request self ?path ?m ?q ?b ?model ?c ?h ?f ?w0] =>
      pose proof (request_round_trip self path m q b model c h f w0) as Hrt;
      remember (RemoteBase._request self path m q b model c h f w0) as res
        eqn:Hres in *;
      clear Hres
  end.
  unfold self_prepare_request, RemoteMetadataStorage_prepare_request,
    RemoteMetadataStorage._prepare_request, RemoteBase._prepare_request,
    or_new_headers, bind, ret, lift, new_headers, read_body, setitem_headers,
    self_get_url, RemoteMetadataStorage_get_url, get_url in Hrt.
  simpl in Hrt. rewrite lookup_insert_eq in Hrt. simpl in Hrt.
  rewrite Hdumps in Hrt. simpl in Hrt.
  destruct (secret self) as [s|]; simpl in Hrt;
    destruct Hrt as (p & Hp & ->); unfold prepare in Hp; simpl in Hp;
    injection Hp as <-; eexists; (split; [reflexivity|]); simpl;
    repeat (split; [reflexivity|]).
  all: intros v; destruct team as [[[tid|]]|]; simpl.
  all: try case_bool_decide; simplify_map_eq.
  all: split; [intros ?; simplify_eq; eauto|intros (t & ? & ? & ?); simplify_eq/=; eauto].
Qed.
End adapter.

(** ** Runs against fixed answers *)

(** Runs a body-less [_request] of the adapter up to the answer of the
    service. *)
Ltac run_request :=
  unfold RemoteBase._request, bind, self_prepare_request,
    RemoteMetadataStorage_prepare_request;
  match goal with
  | |- context [RemoteMetadataStorage._prepare_request ?s ?p ?m ?q None ?c ?h ?f ?w] =>
      let r := fresh "r" in
      let w1 := fresh "w" in
      destruct (prepare_request_without_body s p m q c h f w) as (r & w1 & ->)
  end;
  unfold prepare, send, server; simpl.

Section fixed_answers.
Context {library : Library}.

(** C2. An error response whose JSON body has no [detail] member does
    not end in the HTTP error of [raise_for_status]: the inspection
    itself fails the call, with [KeyError] for an object and with
    [TypeError] for any other JSON value (here a list). *)
Theorem request_json_without_detail (self : RemoteMetadataStorage)
    (path method : string) (query_params cookies : option (gmap string string))
    (headers : option loc) (form_data : bool) (w : World) :
  (RemoteBase._request (T := Empty_set)
     (remote := Stub.always {| status_code := 404; content := IsJSON (JObj []) |})
     self path method query_params None None cookies headers form_data w).1
  = Raise (KeyError "detail") /\
  (RemoteBase._request (T := Empty_set)
     (remote := Stub.always {| status_code := 404; content := IsJSON (JArr []) |})
     self path method query_params None None cookies headers form_data w).1
  = Raise TypeError.
Proof. split; run_request; reflexivity. Qed.

(** The two cases the inspection is written for: a [detail] member
    gives the service error, a body that is not JSON gives the HTTP
    error. *)
Lemma request_error_with_detail_or_text (self : RemoteMetadataStorage)
    (path method : string) (query_params cookies : option (gmap string string))
    (headers : option loc) (form_data : bool) (w : World)
    (details : JSON) (text : string) :
  (RemoteBase._request (T := Empty_set)
     (remote := Stub.always {| status_code := 404;
                               content := IsJSON (JObj [("detail", details)]) |})
     self path method query_params None None cookies headers form_data w).1
  = Raise (EvidentlyServiceError details) /\
  (RemoteBase._request (T := Empty_set)
     (remote := Stub.always {| status_code := 404; content := NotJSON text |})
     self path method query_params None None cookies headers form_data w).1
  = Raise (RequestsHTTPError {| status_code := 404; content := NotJSON text |}).
Proof. split; run_request; reflexivity. Qed.

(** C1. Against a service that answers 404 with the detail "project not
    found", [get_project] does not return absence: the service error of
    [_request] passes through the handler, which only looks at the
    [HTTPError] of line 16. *)
Theorem get_project_not_found_raises (self : RemoteMetadataStorage)
    (project_id : ProjectID) (w : World) :
  (get_project
     (remote := Stub.always
                  {| status_code := 404;
                     content := IsJSON (JObj [("detail", JStr "project not found")]) |})
     self project_id w).1
  = Raise (EvidentlyServiceError (JStr "project not found")).
Proof. unfold get_project, try_except. run_request. reflexivity. Qed.

(** C4. Building the view against a service that cannot be reached, or
    that answers 500 with a body that is not JSON, fails with the
    transport's own exception, not with the [ValueError] that names the
    endpoint. *)
Theorem init_transport_errors_escape (base : string) (secret : option string)
    (w : World) (text : string) :
  (RemoteWorkspaceView.__init__ (remote := Stub.unreachable) base secret w).1
  = Raise RequestsConnectionError /\
  (RemoteWorkspaceView.__init__
     (remote := Stub.always {| status_code := 500; content := NotJSON text |})
     base secret w).1
  = Raise (RequestsHTTPError {| status_code := 500; content := NotJSON text |}).
Proof.
  unfold RemoteWorkspaceView.__init__, RemoteWorkspaceView.verify, try_except.
  split; simpl; run_request; reflexivity.
Qed.

(** Three failures [verify] does convert: a body that is not JSON, an
    empty object and another application's name all end in the
    [ValueError] that names the endpoint. *)
Lemma init_converted_failures (base : string) (secret : option string)
    (w : World) (text : string) (other : string) :
  let failure cause :=
    Raise (ValueError ("Evidenly API not available at " +:+ base) cause) in
  (RemoteWorkspaceView.__init__
     (remote := Stub.always {| status_code := 200; content := NotJSON text |})
     base secret w).1 = failure RequestsJSONDecodeError /\
  (RemoteWorkspaceView.__init__
     (remote := Stub.always {| status_code := 200; content := IsJSON (JObj []) |})
     base secret w).1 = failure (KeyError "application") /\
  (other <> EVIDENTLY_APPLICATION_NAME ->
   (RemoteWorkspaceView.__init__
      (remote := Stub.always
                   {| status_code := 200;
                      content := IsJSON (JObj [("application", JStr other)]) |})
      base secret w).1 = failure AssertionError).
Proof.
  unfold RemoteWorkspaceView.__init__, RemoteWorkspaceView.verify, try_except.
  repeat split; simpl; try (run_request; reflexivity).
  intros Hother. run_request.
  unfold lift, getitem, json; simpl.
  destruct (String.eqb other EVIDENTLY_APPLICATION_NAME) eqn:E;
    [apply String.eqb_eq in E; contradiction|reflexivity].
Qed.
End fixed_answers.

(** A view is only ever returned when some answer names the expected
    application. *)
Lemma init_only_when_verified {library : Library} {remote : Remote}
    (base : string) (secret : option string) (w w' : World)
    (view : RemoteWorkspaceView) :
  RemoteWorkspaceView.__init__ base secret w = (Ok view, w') ->
  exists log p response ms,
    server log p = Reply response /\
    content response = IsJSON (JObj ms) /\
    assoc "application" ms = Some (JStr EVIDENTLY_APPLICATION_NAME).
Proof.
  unfold RemoteWorkspaceView.__init__, RemoteWorkspaceView.verify, try_except.
  simpl. run_request.
  match goal with
  | |- context [remote ?log ?p] =>
      destruct (remote log p) as [response| |cls] eqn:Hreply
  end; [|discriminate|discriminate].
  destruct (RemoteBase.inspect_error response _) as [[[]|e] w2];
    [|simpl; destruct (_ || _); discriminate].
  unfold lift. destruct (raise_for_status response) as [[]|e];
    [|simpl; destruct (_ || _); discriminate].
  unfold ret, json, getitem.
  destruct (content response) as [text|[ | | | | |ms]] eqn:Hcontent; simpl;
    try discriminate.
  destruct (assoc "application" ms) as [application|] eqn:Happ; simpl;
    [|discriminate].
  unfold eq_str.
  destruct application as [ | | |s| |]; simpl; try discriminate.
  destruct (String.eqb s EVIDENTLY_APPLICATION_NAME) eqn:E; simpl;
    [|discriminate].
  apply String.eqb_eq in E. subst s. intros _.
  eauto 10.
Qed.

(** ** Worked runs *)

Section known_project.
#[local] Existing Instance Stub.library.

(** The adapter against a service that reports project P1 under its own
    identity: both snapshots come back bound to the fetched project. *)
Lemma snapshots_bound_to_fetched_project_witness :
  let remote := Stub.one_project "P1" in
  let bound id := {| SnapshotMetadata_id := id; _project := Some Stub.p1 |} in
  exists project w1,
    self_get_project Stub.storage "P1" Stub.empty_world
    = (Ok (Some project), w1) /\
    Forall (fun sm => _project sm = Some project) [bound "S1"; bound "S2"].
Proof.
  intros remote bound.
  apply (proj1 (snapshots_bound_to_fetched_project Stub.storage "P1"
                  Stub.empty_world)
           true true [bound "S1"; bound "S2"]
           (list_snapshots Stub.storage "P1" true true Stub.empty_world).2).
  vm_compute. reflexivity.
Defined.

(** C5, as stated, fails: against a service that answers the lookup of
    P1 with a project whose identity is P2, [list_snapshots] succeeds
    and every snapshot it returns is bound to a project that is not the
    requested one. *)
Lemma bound_project_identity_counterexample :
  let remote := Stub.one_project "P2" in
  exists sms,
    (list_snapshots Stub.storage "P1" true true Stub.empty_world).1 = Ok sms /\
    sms <> [] /\
    Forall (fun sm => Project_id <$> _project sm = Some "P2") sms /\
    ~ Forall (fun sm => Project_id <$> _project sm = Some "P1") sms.
Proof.
  intros remote. eexists. split; [vm_compute; reflexivity|].
  split; [discriminate|]. split.
  - repeat constructor.
  - intros Hall. apply Forall_cons_1 in Hall as [Hhead _]. discriminate Hhead.
Qed.

(** The adapter never removes a header: with no secret configured, a
    caller that itself passes the secret header's name in [headers] gets
    it handed over unchanged. *)
Lemma caller_secret_header_kept :
  let w := Stub.caller_world {[ SECRET_HEADER_NAME := "x" ]} ∅ in
  secret Stub.open_storage = None /\
  exists r w' p,
    RemoteMetadataStorage._prepare_request Stub.open_storage "/api/projects"
      "GET" None None None (Some 1%positive) false w = (Ok r, w') /\
    prepare r w' = (Ok p, w') /\
    p_headers p !! SECRET_HEADER_NAME = Some "x".
Proof.
  intros w. split; [reflexivity|].
  do 3 eexists. split; [vm_compute; reflexivity|].
  split; [vm_compute; reflexivity|]. vm_compute. reflexivity.
Qed.

(** C10, as stated, fails: a caller's empty headers mapping is not the
    one the request uses, so with a JSON body it gains nothing. *)
Lemma empty_headers_counterexample :
  let w := Stub.caller_world ∅ ∅ in
  exists r w',
    RemoteBase._prepare_request Stub.storage "/api/projects" "POST" None
      (Some 1%positive) None (Some 1%positive) false w = (Ok r, w') /\
    data r = DataBytes "{...}" /\
    headers_heap w !! 1%positive = Some ∅ /\
    headers_heap w' !! 1%positive = Some ∅ /\
    headers_heap w' !! headers r
    = Some {[ "Content-Type" := "application/json" ]}.
Proof.
  intros w. do 2 eexists. split; [vm_compute; reflexivity|].
  repeat split; vm_compute; reflexivity.
Qed.

(** A caller's non-empty headers mapping does gain [Content-Type] when a
    JSON body is encoded, and its stream-valued body entries are gone
    after a form request. *)
Lemma prepare_request_effects_witness :
  let w := Stub.caller_world {[ "Accept" := "*/*" ]}
             {[ "name" := Plain (JStr "p1"); "file" := Stream 3 ]} in
  let json_run :=
    RemoteBase._prepare_request Stub.storage "/api/projects" "POST" None
      (Some 1%positive) None (Some 1%positive) false w in
  let form_run :=
    RemoteBase._prepare_request Stub.storage "/api/projects" "POST" None
      (Some 1%positive) None (Some 1%positive) true w in
  headers_heap w !! 1%positive = Some {[ "Accept" := "*/*" ]} /\
  headers_heap json_run.2 !! 1%positive
  = Some (<["Content-Type" := "application/json"]> {[ "Accept" := "*/*" ]}) /\
  body_heap form_run.2 !! 1%positive
  = Some {[ "name" := Plain (JStr "p1") ]}.
Proof.
  intros w json_run form_run.
  assert (Hlive : headers_heap w !! 1%positive = Some {[ "Accept" := "*/*" ]})
    by (vm_compute; reflexivity).
  split; [exact Hlive|]. split.
  - pose proof (prepare_request_effects Stub.storage "/api/projects" "POST"
                  None (Some 1%positive) None (Some 1%positive) false w)
      as (_ & _ & Hheaders).
    unfold json_run. rewrite (Hheaders 1%positive _ Hlive).
    vm_compute. reflexivity.
  - pose proof (prepare_request_effects Stub.storage "/api/projects" "POST"
                  None (Some 1%positive) None (Some 1%positive) true w)
      as (_ & Hbody & _).
    unfold form_run. rewrite Hbody. vm_compute. reflexivity.
Defined.

(** [add_project] with a team whose identity is set: the query carries
    it. *)
Lemma add_project_request_witness :
  let remote := Stub.one_project "P1" in
  let team := Some {| Team_id := Some "T1" |} in
  json_dumps (Project_dict Stub.p1) = Ok "{...}" /\
  exists p,
    sent (add_project Stub.storage Stub.p1 {| User_id := "u" |} team
            Stub.empty_world).2 = [p] /\
    p_method p = "POST" /\
    p_url p = "http://svc:8000/api/projects" /\
    p_body p = WBytes "{...}" /\
    forall v : string,
      p_params p !! "team_id" = Some v <->
      exists t, team = Some t /\ Team_id t = Some v /\ v <> ZERO_UUID.
Proof.
  intros remote team. split; [reflexivity|].
  exact (add_project_request Stub.storage Stub.p1 {| User_id := "u" |} team
           Stub.empty_world "{...}" eq_refl).
Defined.
End known_project.

(** * Further properties *)

(** ** The requests the operations hand to the library *)
Section handed_over.
Context {library : Library} {remote : Remote}.

(** A call without body, headers and cookies hands over [outgoing], and
    nothing else. *)
Lemma bodyless_request_sent {T : Type} (self : RemoteMetadataStorage)
    (path method : string) (query_params : option (gmap string string))
    (response_model : option (JSON -> option T)) (form_data : bool)
    (w : World) :
  sent (RemoteBase._request self path method query_params None response_model
          None None form_data w).2
  = (sent w ++ [outgoing self method path query_params None])%list.
Proof.
  pose proof (request_round_trip self path method query_params None
                response_model None None form_data w) as Hrt.
  remember (RemoteBase._request self path method query_params None
              response_model None None form_data w) as res eqn:Hres in *.
  clear Hres.
  unfold self_prepare_request, RemoteMetadataStorage_prepare_request,
    RemoteMetadataStorage._prepare_request, RemoteBase._prepare_request,
    or_new_headers, bind, ret, lift, new_headers, setitem_headers,
    self_get_url, RemoteMetadataStorage_get_url, get_url in Hrt.
  simpl in Hrt. unfold outgoing.
  destruct (secret self) as [s|]; simpl in Hrt;
    destruct Hrt as (p & Hp & ->); unfold prepare in Hp; simpl in Hp;
    injection Hp as <-; simpl; repeat rewrite lookup_insert_eq; reflexivity.
Qed.

(** A call with a JSON body that encodes, without headers and cookies,
    hands over [outgoing] with the encoded body, and nothing else. *)
Lemma json_request_sent {T : Type} (self : RemoteMetadataStorage)
    (path method : string) (query_params : option (gmap string string))
    (b : loc) (response_model : option (JSON -> option T)) (w : World)
    (d : gmap string Field) (payload : string) :
  body_heap w !! b = Some d ->
  json_dumps d = Ok payload ->
  sent (RemoteBase._request self path method query_params (Some b)
          response_model None None false w).2
  = (sent w ++ [outgoing self method path query_params (Some payload)])%list.
Proof.
  intros Hb Hdumps.
  pose proof (request_round_trip self path method query_params (Some b)
                response_model None None false w) as Hrt.
  remember (RemoteBase._request self path method query_params (Some b)
              response_model None None false w) as res eqn:Hres in *.
  clear Hres.
  unfold self_prepare_request, RemoteMetadataStorage_prepare_request,
    RemoteMetadataStorage._prepare_request, RemoteBase._prepare_request,
    or_new_headers, bind, ret, lift, new_headers, setitem_headers, read_body,
    self_get_url, RemoteMetadataStorage_get_url, get_url in Hrt.
  simpl in Hrt. rewrite Hb in Hrt. simpl in Hrt. rewrite Hdumps in Hrt.
  simpl in Hrt. unfold outgoing.
  destruct (secret self) as [s|]; simpl in Hrt;
    destruct Hrt as (p & Hp & ->); unfold prepare in Hp; simpl in Hp;
    injection Hp as <-; simpl; repeat rewrite lookup_insert_eq; reflexivity.
Qed.

(** [get_project] of the adapter is its typed request: the handler never
    changes an outcome. *)
Lemma get_project_is_request (self : RemoteMetadataStorage)
    (project_id : ProjectID) (w : World) :
  get_project self project_id w =
  match RemoteBase._request self ("/api/projects/" +:+ project_id +:+ "/info")
          "GET" None None (Some parse_Project) None None false w with
  | (Ok project, w') => (Ok (Some project), w')
  | (Raise e, w') => (Raise e, w')
  end.
Proof.
  unfold get_project, try_except, bind.
  destruct (RemoteBase._request _ _ _ _ _ _ _ _ _ w) as [[project|e] w1] eqn:Ereq;
    [reflexivity|].
  apply request_never_raises_HTTPError in Ereq. rewrite Ereq. reflexivity.
Qed.

Lemma get_project_sent (self : RemoteMetadataStorage)
    (project_id : ProjectID) (w : World) :
  sent (get_project self project_id w).2
  = (sent w ++ [outgoing self "GET"
                  ("/api/projects/" +:+ project_id +:+ "/info") None None])%list.
Proof.
  rewrite get_project_is_request.
  rewrite <- (bodyless_request_sent self _ "GET" None (Some parse_Project)
                false w).
  destruct (RemoteBase._request _ _ _ _ _ _ _ _ _ w) as [[project|e] w1];
    reflexivity.
Qed.

End handed_over.

(** ** How requests and lookups fail *)
Section failures.
Context {library : Library} {remote : Remote}.

Lemma inspect_error_raises_only (response : Response) (w w' : World) (e : Exn) :
  RemoteBase.inspect_error response w = (Raise e, w') ->
  raised_by_request e = true.
Proof.
  unfold RemoteBase.inspect_error, try_except, bind, lift, json, getitem,
    raise, ret.
  destruct (status_code response >=? 400); [|discriminate].
  destruct (content response) as [text|[ | | | | |ms]]; simpl;
    try (intros [= <- <-]; reflexivity); try discriminate.
  destruct (assoc "detail" ms); simpl; intros [= <- <-]; reflexivity.
Qed.

(** A request without a body, made through the adapter, fails only with
    the network's error, the errors of the inspection, the HTTP error of
    [raise_for_status] and the errors of decoding. *)
Lemma request_raises_only {T : Type} (self : RemoteMetadataStorage)
    (path method : string) (query_params cookies : option (gmap string string))
    (response_model : option (JSON -> option T))
    (headers : option loc) (form_data : bool) (w w' : World) (e : Exn) :
  RemoteBase._request self path method query_params None response_model
    cookies headers form_data w = (Raise e, w') ->
  raised_by_request e = true.
Proof.
  unfold RemoteBase._request, bind, self_prepare_request,
    RemoteMetadataStorage_prepare_request.
  destruct (prepare_request_without_body self path method query_params
              cookies headers form_data w) as (r & w1 & ->).
  unfold prepare, send.
  destruct (server _ _) as [response| |cls];
    [|intros [= <- <-]; reflexivity|intros [= <- <-]; reflexivity].
  destruct (RemoteBase.inspect_error response _) as [[[]|e0] w2] eqn:Einspect.
  - unfold lift, raise_for_status.
    destruct (_ && _); [intros [= <- <-]; reflexivity|].
    destruct response_model as [model|]; [|discriminate].
    unfold json, parse_obj_as.
    destruct (content response); [intros [= <- <-]; reflexivity|].
    destruct (model j); [discriminate|intros [= <- <-]; reflexivity].
  - intros [= <- <-]. eapply inspect_error_raises_only, Einspect.
Qed.


(** X3. On the adapter itself the guard of [list_snapshots] and
    [get_snapshot_metadata] never fires: neither operation ever raises
    [ProjectNotFound], whatever the service answers. *)
Theorem adapter_never_raises_ProjectNotFound (self : RemoteMetadataStorage)
    (project_id : ProjectID) (snapshot_id : SnapshotID)
    (include_reports include_test_suites : bool) (w : World) :
  (list_snapshots self project_id include_reports include_test_suites w).1
  <> Raise ProjectNotFound /\
  (get_snapshot_metadata self project_id snapshot_id w).1
  <> Raise ProjectNotFound.
Proof.
  unfold list_snapshots, get_snapshot_metadata, bind, self_get_project,
    RemoteMetadataStorage_get_project.
  rewrite get_project_is_request.
  destruct (RemoteBase._request _ _ _ _ _ _ _ _ _ w) as [[project|e] w1] eqn:Ereq.
  - split.
    + destruct (RemoteBase._request _ _ _ _ _ _ _ _ _ w1) as [[sms|e] w2] eqn:E2;
        simpl; [discriminate|].
      apply request_raises_only in E2. intros [= ->]. discriminate E2.
    + destruct (RemoteBase._request _ _ _ _ _ _ _ _ _ w1) as [[sm|e] w2] eqn:E2;
        simpl; [discriminate|].
      apply request_raises_only in E2. intros [= ->]. discriminate E2.
  - apply request_raises_only in Ereq.
    split; simpl; intros [= ->]; discriminate Ereq.
Qed.

End failures.

(** ** What a request makes of the answer *)
Section answers.
Context {library : Library}.

(** X5. The outcome of a request whose answer has a 4xx or 5xx status,
    for every response model.  A JSON object with a [detail] member gives
    a service error carrying that member, whatever its JSON type; a body
    that is not JSON gives the HTTP error of [raise_for_status], carrying
    the response; a JSON object without [detail] gives [KeyError], and any
    other JSON value [TypeError]. *)
Theorem error_response_table {T : Type} (self : RemoteMetadataStorage)
    (path method : string) (query_params cookies : option (gmap string string))
    (response_model : option (JSON -> option T))
    (caller_headers : option loc) (form_data : bool) (w : World)
    (r : Response) :
  400 <= status_code r < 600 ->
  (RemoteBase._request (remote := Stub.always r) self path method query_params
     None response_model cookies caller_headers form_data w).1
  = match content r with
    | NotJSON _ => Raise (RequestsHTTPError r)
    | IsJSON (JObj ms) =>
        match assoc "detail" ms with
        | Some details => Raise (EvidentlyServiceError details)
        | None => Raise (KeyError "detail")
        end
    | IsJSON _ => Raise TypeError
    end.
Proof.
  intros [Hlow Hhigh].
  unfold RemoteBase._request, bind, self_prepare_request,
    RemoteMetadataStorage_prepare_request.
  destruct (prepare_request_without_body self path method query_params
              cookies caller_headers form_data w) as (rq & w1 & ->).
  unfold prepare, send, server, Stub.always.
  rewrite inspect_error_cases by exact Hlow.
  unfold lift, raise_for_status.
  assert (Hclass : (400 <=? status_code r) && (status_code r <? 600) = true).
  { apply andb_true_iff. split; [apply Z.leb_le|apply Z.ltb_lt]; lia. }
  rewrite Hclass.
  destruct (content r) as [text|[ | | | | |ms]]; try reflexivity.
  destruct (assoc "detail" ms); reflexivity.
Qed.

(** X6. The outcome of a request whose answer has a status below 400.
    Without a response model the response itself is returned, whatever
    its body.  With a model, a body that is not JSON raises the decode
    error, and a JSON body gives what the model's validator makes of it:
    the value, or a validation error. *)
Theorem success_response_table {T : Type} (self : RemoteMetadataStorage)
    (path method : string) (query_params cookies : option (gmap string string))
    (model : JSON -> option T)
    (caller_headers : option loc) (form_data : bool) (w : World)
    (r : Response) :
  status_code r < 400 ->
  (RemoteBase._request (T := T) (remote := Stub.always r) self path method
     query_params None None cookies caller_headers form_data w).1 = Ok r /\
  (RemoteBase._request (remote := Stub.always r) self path method query_params
     None (Some model) cookies caller_headers form_data w).1
  = match content r with
    | NotJSON _ => Raise RequestsJSONDecodeError
    | IsJSON j =>
        match model j with
        | Some value => Ok value
        | None => Raise ValidationError
        end
    end.
Proof.
  intros Hstatus.
  assert (Hclass : (400 <=? status_code r) && (status_code r <? 600) = false).
  { apply andb_false_iff. left. apply Z.leb_gt. exact Hstatus. }
  unfold RemoteBase._request, bind, self_prepare_request,
    RemoteMetadataStorage_prepare_request.
  destruct (prepare_request_without_body self path method query_params
              cookies caller_headers form_data w) as (rq & w1 & ->).
  unfold prepare, send, server, Stub.always.
  rewrite inspect_error_below_400 by exact Hstatus.
  unfold lift, raise_for_status. rewrite Hclass.
  split; [reflexivity|].
  unfold json, parse_obj_as.
  destruct (content r) as [text|j]; [reflexivity|].
  destruct (model j); reflexivity.
Qed.
End answers.

(** ** Requests with a body *)
Section bodies.
Context {library : Library} {remote : Remote}.


(** X8. A JSON body that cannot be encoded sends nothing: the encoder's
    exception is the outcome of [_request] and the log of sent requests is
    as before, whatever headers and cookies the caller gave. *)
Theorem unencodable_body_sends_nothing {T : Type}
    (self : RemoteMetadataStorage) (path method : string)
    (query_params cookies : option (gmap string string)) (b : loc)
    (response_model : option (JSON -> option T)) (caller_headers : option loc)
    (w : World) (d : gmap string Field) (e : Exn) :
  body_heap w !! b = Some d ->
  json_dumps d = Raise e ->
  let outcome :=
    RemoteBase._request self path method query_params (Some b) response_model
      cookies caller_headers false w in
  outcome.1 = Raise e /\ sent outcome.2 = sent w.
Proof.
  intros Hb Hdumps outcome. subst outcome.
  pose proof (request_round_trip self path method query_params (Some b)
                response_model cookies caller_headers false w) as Hrt.
  remember (RemoteBase._request self path method query_params (Some b)
              response_model cookies caller_headers false w) as res eqn:Hres in *.
  clear Hres.
  unfold self_prepare_request, RemoteMetadataStorage_prepare_request,
    RemoteMetadataStorage._prepare_request, RemoteBase._prepare_request,
    or_new_headers, bind, ret, lift, new_headers, read_headers, setitem_headers,
    read_body in Hrt.
  destruct caller_headers as [l|]; simpl in Hrt;
    [destruct (bool_decide _); simpl in Hrt|];
    rewrite Hb in Hrt; simpl in Hrt; rewrite Hdumps in Hrt; simpl in Hrt;
    rewrite Hrt; split; reflexivity.
Qed.

(** X9. A JSON body that encodes goes out as the encoded bytes with
    [Content-Type: application/json], whatever the caller's headers said
    about the content type.  The secret header's name is assumed not to be
    [Content-Type]. *)
Theorem json_body_content_type {T : Type}
    (self : RemoteMetadataStorage) (path method : string)
    (query_params cookies : option (gmap string string)) (b : loc)
    (response_model : option (JSON -> option T)) (caller_headers : option loc)
    (w : World) (d : gmap string Field) (payload : string) :
  SECRET_HEADER_NAME <> "Content-Type" ->
  body_heap w !! b = Some d ->
  json_dumps d = Ok payload ->
  exists p,
    sent (RemoteBase._request self path method query_params (Some b)
            response_model cookies caller_headers false w).2
    = (sent w ++ [p])%list /\
    p_method p = method /\
    p_body p = WBytes payload /\
    p_headers p !! "Content-Type" = Some "application/json".
Proof.
  intros Hname Hb Hdumps.
  pose proof (request_round_trip self path method query_params (Some b)
                response_model cookies caller_headers false w) as Hrt.
  remember (RemoteBase._request self path method query_params (Some b)
              response_model cookies caller_headers false w) as res eqn:Hres in *.
  clear Hres.
  unfold self_prepare_request, RemoteMetadataStorage_prepare_request,
    RemoteMetadataStorage._prepare_request, RemoteBase._prepare_request,
    or_new_headers, bind, ret, lift, new_headers, read_headers, setitem_headers,
    read_body, self_get_url, RemoteMetadataStorage_get_url, get_url in Hrt.
  destruct caller_headers as [l|]; simpl in Hrt;
    [destruct (bool_decide _); simpl in Hrt|];
    rewrite Hb in Hrt; simpl in Hrt; rewrite Hdumps in Hrt; simpl in Hrt;
    destruct (secret self) as [s|]; simpl in Hrt;
    destruct Hrt as (p & Hp & ->); unfold prepare in Hp; simpl in Hp;
    injection Hp as <-; eexists; (split; [reflexivity|]); simpl;
    (split; [reflexivity|]); (split; [reflexivity|]);
    repeat first [ rewrite lookup_insert_eq; simpl
                 | rewrite lookup_insert_ne by exact Hname ];
    reflexivity.
Qed.
End bodies.

(** ** Caller mappings that the request shares *)
Section shared_mappings.
Context {library : Library}.

(** Popping the stream-valued entries splits a mapping in two. *)
Lemma pop_streams_partition (d : gmap string Field) :
  let fields := filter (fun kv : string * Field => is_IOBase kv.2 = false) d in
  let parts := filter (fun kv : string * Field => is_IOBase kv.2 = true) d in
  fields ∪ parts = d /\
  fields ##ₘ parts /\
  map_Forall (fun _ v => is_IOBase v = false) fields /\
  map_Forall (fun _ v => is_IOBase v = true) parts.
Proof.
  intros fields parts. subst fields parts. repeat split.
  - apply map_eq. intros k. apply option_eq. intros v.
    rewrite lookup_union_Some_raw, !map_lookup_filter_Some,
      map_lookup_filter_None. simpl.
    destruct (is_IOBase v) eqn:E; split.
    + intros [[_ ?]|[_ [? _]]]; [congruence|done].
    + intros Hk. right. split; [|done]. right. intros v' Hv'.
      simplify_eq. congruence.
    + intros [[? _]|[_ [_ ?]]]; [done|congruence].
    + intros Hk. left. done.
  - apply map_disjoint_spec. intros k v1 v2.
    rewrite !map_lookup_filter_Some. simpl.
    intros [H1 E1] [H2 E2]. simplify_eq. congruence.
  - apply map_Forall_lookup. intros k v.
    rewrite map_lookup_filter_Some. simpl. tauto.
  - apply map_Forall_lookup. intros k v.
    rewrite map_lookup_filter_Some. simpl. tauto.
Qed.

(** X10. A form request loses nothing: the caller's body mapping is
    shared with the request as its form fields, the stream-valued entries
    become its file parts, and together the two are exactly the entries
    the caller passed, each in one of them. *)
Theorem form_body_partition {Self : Type} `{!GetUrl Self} (self : Self)
    (path method : string) (query_params cookies : option (gmap string string))
    (b : loc) (caller_headers : option loc) (w w' : World)
    (d : gmap string Field) (r : Request) :
  body_heap w !! b = Some d ->
  RemoteBase._prepare_request self path method query_params (Some b) cookies
    caller_headers true w = (Ok r, w') ->
  data r = DataDict b /\
  exists fields parts,
    body_heap w' !! b = Some fields /\
    files r = Some parts /\
    fields ∪ parts = d /\
    fields ##ₘ parts /\
    map_Forall (fun _ v => is_IOBase v = false) fields /\
    map_Forall (fun _ v => is_IOBase v = true) parts /\
    exists p, prepare r w' = (Ok p, w') /\
              p_body p = WForm fields (Some parts).
Proof.
  intros Hb.
  pose proof (pop_streams_partition d) as (Hunion & Hdisjoint & Hplain & Hstream).
  unfold RemoteBase._prepare_request, or_new_headers, bind, ret, lift,
    new_headers, read_headers, read_body, write_body.
  destruct caller_headers as [l|]; simpl;
    [destruct (bool_decide _); simpl|];
    rewrite Hb; simpl;
    (destruct (self_get_url self) as [base|e]; simpl; [|discriminate]);
    intros [= <- <-]; simpl;
    (split; [reflexivity|]);
    do 2 eexists;
    (split; [apply lookup_insert_eq|]);
    (split; [reflexivity|]);
    (split; [exact Hunion|]);
    (split; [exact Hdisjoint|]);
    (split; [exact Hplain|]);
    (split; [exact Hstream|]);
    eexists; (split; [reflexivity|]); simpl;
    rewrite lookup_insert_eq; reflexivity.
Qed.

(** X11. With a secret configured, a caller's non-empty headers mapping
    that is passed to the adapter is the request's own headers mapping,
    so after the call the caller's mapping holds the secret. *)
Theorem secret_written_into_caller_headers (self : RemoteMetadataStorage)
    (path method : string) (query_params cookies : option (gmap string string))
    (body : option loc) (l : loc) (form_data : bool) (w w' : World)
    (d : gmap string string) (s : string) (r : Request) :
  secret self = Some s ->
  headers_heap w !! l = Some d ->
  d <> ∅ ->
  RemoteMetadataStorage._prepare_request self path method query_params body
    cookies (Some l) form_data w = (Ok r, w') ->
  headers r = l /\
  exists d', headers_heap w' !! l = Some d' /\
             d' !! SECRET_HEADER_NAME = Some s.
Proof.
  intros Hsecret Hl Hd.
  unfold RemoteMetadataStorage._prepare_request, RemoteBase._prepare_request,
    or_new_headers, bind, ret, lift, new_headers, read_headers, read_body,
    write_body, setitem_headers, self_get_url, RemoteMetadataStorage_get_url,
    get_url.
  rewrite Hsecret. simpl. rewrite Hl. simpl.
  rewrite bool_decide_eq_false_2 by exact Hd.
  destruct body as [b|]; [destruct form_data|]; simpl;
    repeat (destruct (json_dumps _); simpl; [|discriminate]);
    intros [= <- <-]; simpl;
    (split; [reflexivity|]);
    eexists; (split; [apply lookup_insert_eq|]);
    apply lookup_insert_eq.
Qed.
End shared_mappings.

(** ** Building the view *)
Section building.
Context {library : Library}.


(** X13. Against a service whose answer has a status below 400 and names
    the expected application, building the view succeeds and returns the
    view over the given base URL and secret. *)
Theorem init_succeeds_when_application_matches (base : string)
    (secret : option string) (w : World) (r : Response)
    (ms : list (string * JSON)) :
  status_code r < 400 ->
  content r = IsJSON (JObj ms) ->
  assoc "application" ms = Some (JStr EVIDENTLY_APPLICATION_NAME) ->
  (RemoteWorkspaceView.__init__ (remote := Stub.always r) base secret w).1
  = Ok {| view_base_url := base;
          view_secret := secret;
          project_manager :=
            {| metadata := {| base_url := base; secret := secret |};
               blob := mkNoopBlobStorage;
               data_storage := mkNoopDataStorage;
               auth := mkNoopAuthManager |} |}.
Proof.
  intros Hstatus Hcontent Happlication.
  assert (Hclass : (400 <=? status_code r) && (status_code r <? 600) = false).
  { apply andb_false_iff. left. apply Z.leb_gt. exact Hstatus. }
  unfold RemoteWorkspaceView.__init__, RemoteWorkspaceView.verify, try_except,
    bind. simpl.
  unfold RemoteBase._request, bind, self_prepare_request,
    RemoteMetadataStorage_prepare_request.
  match goal with
  | |- context [RemoteMetadataStorage._prepare_request ?s ?p ?m ?q None ?c ?h ?f ?w0] =>
      destruct (prepare_request_without_body s p m q c h f w0) as (rq & w1 & ->)
  end.
  unfold prepare, send, server, Stub.always.
  rewrite inspect_error_below_400 by exact Hstatus.
  unfold lift, raise_for_status. rewrite Hclass.
  unfold ret, json, getitem. rewrite Hcontent. rewrite Happlication.
  unfold eq_str. rewrite String.eqb_refl. reflexivity.
Qed.
End building.

(** ** Further worked runs *)

Section unreachable_service.
#[local] Existing Instance Stub.library.
#[local] Existing Instance Stub.unreachable.


(** The connection error of the lookup is the error of both snapshot
    operations. *)
Lemma failed_lookup_short_circuits_witness :
  let w1 := (self_get_project Stub.storage "P1" Stub.empty_world).2 in
  self_get_project Stub.storage "P1" Stub.empty_world
  = (Raise RequestsConnectionError, w1) /\
  list_snapshots Stub.storage "P1" true true Stub.empty_world
  = (Raise RequestsConnectionError, w1) /\
  get_snapshot_metadata Stub.storage "P1" "S1" Stub.empty_world
  = (Raise RequestsConnectionError, w1).
Proof.
  intros w1.
  assert (Hlookup : self_get_project Stub.storage "P1" Stub.empty_world
                    = (Raise RequestsConnectionError, w1))
    by (vm_compute; reflexivity).
  split; [exact Hlookup|].
  exact (failed_lookup_short_circuits Stub.storage "P1" "S1" true true
           Stub.empty_world w1 RequestsConnectionError Hlookup).
Defined.
End unreachable_service.

Section answered_requests.
#[local] Existing Instance Stub.library.


(** The scenario of a 404 whose detail is not the expected one. *)
Lemma error_response_table_witness :
  let r := {| status_code := 404;
              content := IsJSON (JObj [("detail", JStr "server exploded")]) |} in
  400 <= status_code r < 600 /\
  (RemoteBase._request (T := Empty_set) (remote := Stub.always r) Stub.storage
     "/api/projects/missing2/info" "GET" None None None None None false
     Stub.empty_world).1
  = Raise (EvidentlyServiceError (JStr "server exploded")).
Proof.
  intros r.
  assert (Hstatus : 400 <= status_code r < 600) by (simpl; lia).
  split; [exact Hstatus|].
  exact (error_response_table (T := Empty_set) Stub.storage
           "/api/projects/missing2/info" "GET" None None None None false
           Stub.empty_world r Hstatus).
Defined.

(** A 200 answer with a project: returned as it is without a model,
    validated with one. *)
Lemma success_response_table_witness :
  let r := {| status_code := 200;
              content := IsJSON (JObj [("id", JStr "P1"); ("name", JStr "p1")]) |} in
  status_code r < 400 /\
  (RemoteBase._request (T := Project) (remote := Stub.always r) Stub.storage
     "/api/projects/P1/info" "GET" None None None None None false
     Stub.empty_world).1 = Ok r /\
  (RemoteBase._request (remote := Stub.always r) Stub.storage
     "/api/projects/P1/info" "GET" None None (Some parse_Project) None None
     false Stub.empty_world).1 = Ok Stub.p1.
Proof.
  intros r.
  assert (Hstatus : status_code r < 400) by (simpl; lia).
  split; [exact Hstatus|].
  exact (success_response_table Stub.storage "/api/projects/P1/info" "GET"
           None None parse_Project None false Stub.empty_world r Hstatus).
Defined.


(** A caller whose headers ask for another content type. *)
Lemma json_body_content_type_witness :
  let remote := Stub.one_project "P1" in
  let w := Stub.caller_world {[ "Content-Type" := "text/plain" ]}
             {[ "name" := Plain (JStr "p1") ]} in
  SECRET_HEADER_NAME <> "Content-Type" /\
  body_heap w !! 1%positive = Some {[ "name" := Plain (JStr "p1") ]} /\
  exists p,
    sent (RemoteBase._request (T := Empty_set) Stub.storage "/api/projects"
            "POST" None (Some 1%positive) None None (Some 1%positive) false
            w).2 = (sent w ++ [p])%list /\
    p_method p = "POST" /\
    p_body p = WBytes "{...}" /\
    p_headers p !! "Content-Type" = Some "application/json".
Proof.
  intros remote w.
  assert (Hname : SECRET_HEADER_NAME <> "Content-Type") by discriminate.
  assert (Hb : body_heap w !! 1%positive
               = Some {[ "name" := Plain (JStr "p1") ]})
    by (vm_compute; reflexivity).
  split; [exact Hname|]. split; [exact Hb|].
  exact (json_body_content_type (T := Empty_set) Stub.storage "/api/projects"
           "POST" None None 1%positive None (Some 1%positive) w _ "{...}"
           Hname Hb eq_refl).
Defined.

(** A form request with one plain field and one stream. *)
Lemma form_body_partition_witness :
  let d : gmap string Field :=
    {[ "name" := Plain (JStr "p1"); "file" := Stream 3 ]} in
  let w := Stub.caller_world ∅ d in
  let run :=
    RemoteBase._prepare_request Stub.storage "/api/upload" "POST" None
      (Some 1%positive) None None true w in
  body_heap w !! 1%positive = Some d /\
  exists r,
    run = (Ok r, run.2) /\
    data r = DataDict 1%positive /\
    exists fields parts,
      body_heap run.2 !! 1%positive = Some fields /\
      files r = Some parts /\
      fields ∪ parts = d /\
      fields ##ₘ parts /\
      map_Forall (fun _ v => is_IOBase v = false) fields /\
      map_Forall (fun _ v => is_IOBase v = true) parts /\
      exists p, prepare r run.2 = (Ok p, run.2) /\
                p_body p = WForm fields (Some parts).
Proof.
  intros d w run.
  assert (Hb : body_heap w !! 1%positive = Some d) by (vm_compute; reflexivity).
  split; [exact Hb|].
  eexists. split; [vm_compute; reflexivity|].
  refine (form_body_partition Stub.storage "/api/upload" "POST" None None
            1%positive None w run.2 d _ Hb _).
  vm_compute. reflexivity.
Defined.

(** A caller's headers mapping after a call through an adapter with a
    secret. *)
Lemma secret_written_into_caller_headers_witness :
  let d : gmap string string := {[ "Accept" := "*/*" ]} in
  let w := Stub.caller_world d ∅ in
  let run :=
    RemoteMetadataStorage._prepare_request Stub.storage "/api/projects" "GET"
      None None None (Some 1%positive) false w in
  secret Stub.storage = Some "abc" /\
  headers_heap w !! 1%positive = Some d /\
  d <> ∅ /\
  exists r,
    run = (Ok r, run.2) /\
    headers r = 1%positive /\
    exists d', headers_heap run.2 !! 1%positive = Some d' /\
               d' !! SECRET_HEADER_NAME = Some "abc".
Proof.
  intros d w run.
  assert (Hl : headers_heap w !! 1%positive = Some d)
    by (vm_compute; reflexivity).
  assert (Hd : d <> ∅).
  { intros Hempty.
    assert (Hk : d !! "Accept" = Some "*/*") by (vm_compute; reflexivity).
    rewrite Hempty in Hk. discriminate Hk. }
  split; [reflexivity|]. split; [exact Hl|]. split; [exact Hd|].
  eexists. split; [vm_compute; reflexivity|].
  refine (secret_written_into_caller_headers Stub.storage "/api/projects" "GET"
            None None None 1%positive false w run.2 d "abc" _ eq_refl Hl Hd _).
  vm_compute. reflexivity.
Defined.

(** Building the view against a service that names the expected
    application. *)
Lemma init_succeeds_when_application_matches_witness :
  status_code Stub.version_answer < 400 /\
  exists view,
    (RemoteWorkspaceView.__init__ (remote := Stub.always Stub.version_answer)
       "http://svc:8000" (Some "abc") Stub.empty_world).1 = Ok view /\
    metadata (project_manager view) = Stub.storage.
Proof.
  assert (Hstatus : status_code Stub.version_answer < 400) by (simpl; lia).
  split; [exact Hstatus|].
  eexists. split.
  - exact (init_succeeds_when_application_matches "http://svc:8000"
             (Some "abc") Stub.empty_world Stub.version_answer
             [("application", JStr "Evidently UI")] Hstatus eq_refl eq_refl).
  - reflexivity.
Defined.

Lemma init_only_when_verified_witness :
  let remote := Stub.always Stub.version_answer in
  let run :=
    RemoteWorkspaceView.__init__ "http://svc:8000" None Stub.empty_world in
  exists view,
    run = (Ok view, run.2) /\
    exists log p response ms,
      server log p = Reply response /\
      content response = IsJSON (JObj ms) /\
      assoc "application" ms = Some (JStr EVIDENTLY_APPLICATION_NAME).
Proof.
  intros remote run.
  eexists. split; [vm_compute; reflexivity|].
  refine (init_only_when_verified "http://svc:8000" None Stub.empty_world
            run.2 _ _).
  vm_compute. reflexivity.
Defined.


(** An endpoint that is some other application. *)
Lemma init_converted_failures_witness :
  "Other" <> EVIDENTLY_APPLICATION_NAME /\
  (RemoteWorkspaceView.__init__
     (remote := Stub.always
                  {| status_code := 200;
                     content := IsJSON (JObj [("application", JStr "Other")]) |})
     "http://svc:8000" None Stub.empty_world).1
  = Raise (ValueError "Evidenly API not available at http://svc:8000"
             AssertionError).
Proof.
  assert (Hother : "Other" <> EVIDENTLY_APPLICATION_NAME) by discriminate.
  split; [exact Hother|].
  exact (proj2 (proj2 (init_converted_failures "http://svc:8000" None
                         Stub.empty_world "" "Other")) Hother).
Defined.
End answered_requests.

Section refusing_encoder.
#[local] Existing Instance Stub.strict_library.

(** A JSON request whose body holds a stream, with an encoder that
    refuses streams. *)
Lemma unencodable_body_sends_nothing_witness :
  let remote := Stub.one_project "P1" in
  let d : gmap string Field := {[ "file" := Stream 3 ]} in
  let w := Stub.caller_world ∅ d in
  let outcome :=
    RemoteBase._request (T := Empty_set) Stub.storage "/api/projects" "POST"
      None (Some 1%positive) None None None false w in
  body_heap w !! 1%positive = Some d /\
  json_dumps d = Raise TypeError /\
  outcome.1 = Raise TypeError /\ sent outcome.2 = sent w.
Proof.
  intros remote d w outcome.
  assert (Hb : body_heap w !! 1%positive = Some d) by (vm_compute; reflexivity).
  assert (Hdumps : json_dumps d = Raise TypeError) by (vm_compute; reflexivity).
  split; [exact Hb|]. split; [exact Hdumps|].
  exact (unencodable_body_sends_nothing (T := Empty_set) Stub.storage
           "/api/projects" "POST" None None 1%positive None None w d TypeError
           Hb Hdumps).
Defined.
End refusing_encoder.

(** ** A project the service does not know *)
Section unknown_project.
Context {library : Library}.

(** C3. Against a service that answers the lookup with 404 and the detail
    "project not found", [list_snapshots] and [get_snapshot_metadata] of
    the adapter do not raise [ProjectNotFound]: both end in the service
    error of the lookup.  The world is as the lookup left it, so no
    snapshot request is made. *)
Theorem missing_project_raises_service_error (self : RemoteMetadataStorage)
    (project_id : ProjectID) (snapshot_id : SnapshotID)
    (include_reports include_test_suites : bool) (w : World) :
  let remote : Remote := Stub.no_project in
  let not_found := EvidentlyServiceError (JStr "project not found") in
  let lookup := get_project self project_id w in
  lookup.1 = Raise not_found /\
  list_snapshots self project_id include_reports include_test_suites w
  = (Raise not_found, lookup.2) /\
  get_snapshot_metadata self project_id snapshot_id w
  = (Raise not_found, lookup.2).
Proof.
  intros remote not_found lookup.
  assert (Hlookup : lookup.1 = Raise not_found).
  { subst lookup remote. unfold get_project, try_except, Stub.no_project.
    run_request. reflexivity. }
  split; [exact Hlookup|].
  unfold list_snapshots, get_snapshot_metadata, bind, self_get_project,
    RemoteMetadataStorage_get_project.
  fold lookup. destruct lookup as [outcome w1]. simpl in Hlookup.
  subst outcome. split; reflexivity.
Qed.
End unknown_project.

(** ** The secret header on the request *)
Section secret_on_request.
Context {library : Library}.

End secret_on_request.

(** ** The answer to the version request *)
Section version_answer.
Context {library : Library}.

(** A call without body, headers and cookies hands [outgoing] to the
    library and goes on with what comes back. *)
Lemma bodyless_request_unfold {remote : Remote} {T : Type}
    (self : RemoteMetadataStorage) (path method : string)
    (query_params : option (gmap string string))
    (response_model : option (JSON -> option T)) (form_data : bool)
    (w : World) :
  exists w1,
    sent w1 = sent w /\
    RemoteBase._request self path method query_params None response_model
      None None form_data w
    = (let* response := send (outgoing self method path query_params None) in
       RemoteBase.inspect_error response ;;
       lift (raise_for_status response) ;;
       match response_model return M (returns T response_model) with
       | Some model =>
           let* j := lift (json response) in
           lift (parse_obj_as model j)
       | None => ret response
       end) w1.
Proof.
  unfold RemoteBase._request, self_prepare_request,
    RemoteMetadataStorage_prepare_request,
    RemoteMetadataStorage._prepare_request, RemoteBase._prepare_request,
    or_new_headers, bind, ret, lift, new_headers, setitem_headers,
    self_get_url, RemoteMetadataStorage_get_url, get_url, prepare, outgoing.
  destruct (secret self) as [s|]; simpl;
    eexists; (split; [|repeat rewrite lookup_insert_eq; simpl; reflexivity]);
    reflexivity.
Qed.

(** X16. What building the view makes of an answer with a status below
    400.  A body that is not JSON, an object without an [application]
    member, and an [application] member that is not the expected name
    (another string, or a value that is no string) each end in the
    [ValueError] that names the endpoint, chained from the decode error,
    [KeyError] and [AssertionError]; a JSON value that is no object ends
    in [TypeError], unconverted; the expected name gives the view. *)
Theorem version_answer_table (base : string) (secret : option string)
    (w : World) (r : Response) :
  status_code r < 400 ->
  let failure cause :=
    Raise (ValueError ("Evidenly API not available at " +:+ base) cause) in
  (RemoteWorkspaceView.__init__ (remote := Stub.always r) base secret w).1
  = match content r with
    | NotJSON _ => failure RequestsJSONDecodeError
    | IsJSON (JObj ms) =>
        match assoc "application" ms with
        | None => failure (KeyError "application")
        | Some application =>
            if eq_str application EVIDENTLY_APPLICATION_NAME
            then Ok {| view_base_url := base;
                       view_secret := secret;
                       project_manager :=
                         {| metadata := {| base_url := base; secret := secret |};
                            blob := mkNoopBlobStorage;
                            data_storage := mkNoopDataStorage;
                            auth := mkNoopAuthManager |} |}
            else failure AssertionError
        end
    | IsJSON _ => Raise TypeError
    end.
Proof.
  intros Hstatus failure. subst failure.
  assert (Hclass : (400 <=? status_code r) && (status_code r <? 600) = false).
  { apply andb_false_iff. left. apply Z.leb_gt. exact Hstatus. }
  unfold RemoteWorkspaceView.__init__, RemoteWorkspaceView.verify, try_except,
    bind at 1 2.
  simpl.
  destruct (bodyless_request_unfold (remote := Stub.always r) (T := Empty_set)
              {| base_url := base; secret := secret |} "/api/version" "GET"
              None None false w) as (w1 & _ & ->).
  unfold bind, send, server, Stub.always.
  rewrite inspect_error_below_400 by exact Hstatus.
  unfold lift, raise_for_status. rewrite Hclass.
  unfold ret, json, getitem.
  destruct (content r) as [text|[ | | | | |ms]]; simpl; try reflexivity.
  destruct (assoc "application" ms) as [application|]; simpl; [|reflexivity].
  destruct (eq_str application EVIDENTLY_APPLICATION_NAME); reflexivity.
Qed.

(** X17. A view is returned only if the library's outcome for the
    version request of this very construction, given the requests handed
    over before it, is a response with a status below 400 whose body is a
    JSON object with the expected application name. *)
Theorem init_requires_version_answer {remote : Remote} (base : string)
    (secret : option string) (w w' : World) (view : RemoteWorkspaceView) :
  RemoteWorkspaceView.__init__ base secret w = (Ok view, w') ->
  exists response ms,
    server (sent w)
      (outgoing {| base_url := base; secret := secret |} "GET" "/api/version"
         None None) = Reply response /\
    status_code response < 400 /\
    content response = IsJSON (JObj ms) /\
    assoc "application" ms = Some (JStr EVIDENTLY_APPLICATION_NAME).
Proof.
  unfold RemoteWorkspaceView.__init__, RemoteWorkspaceView.verify, try_except,
    bind at 1 2.
  simpl.
  destruct (bodyless_request_unfold (T := Empty_set)
              {| base_url := base; secret := secret |} "/api/version" "GET"
              None None false w) as (w1 & Hsent & ->).
  unfold bind, send. rewrite Hsent.
  destruct (server _ _) as [response| |cls] eqn:Hreply;
    [|discriminate|discriminate].
  destruct (Z_lt_ge_dec (status_code response) 400) as [Hlow|Hhigh].
  - rewrite inspect_error_below_400 by exact Hlow.
    unfold lift.
    destruct (raise_for_status response) as [[]|e];
      [|simpl; destruct (_ || _); discriminate].
    unfold ret, json, getitem.
    destruct (content response) as [text|[ | | | | |ms]] eqn:Hcontent; simpl;
      try discriminate.
    destruct (assoc "application" ms) as [application|] eqn:Happ; simpl;
      [|discriminate].
    unfold eq_str.
    destruct application as [ | | |s| |]; simpl; try discriminate.
    destruct (String.eqb s EVIDENTLY_APPLICATION_NAME) eqn:E; simpl;
      [|discriminate].
    apply String.eqb_eq in E. subst s. intros _.
    exists response, ms. auto.
  - rewrite inspect_error_cases by lia.
    destruct (content response) as [text|[ | | | | |ms]] eqn:Hcontent; simpl.
    + unfold lift, raise_for_status.
      destruct (_ && _) eqn:Hclass; simpl; [discriminate|].
      unfold json. rewrite Hcontent. simpl. discriminate.
    + discriminate.
    + discriminate.
    + discriminate.
    + discriminate.
    + discriminate.
    + destruct (assoc "detail" ms); simpl; [discriminate|].
      discriminate.
Qed.
End version_answer.

(** ** Encoding and decoding a JSON body *)
Section json_body.

(** Induction over a value and, with it, over the values it holds. *)
Lemma PyValue_nested_ind (P : PyValue -> Prop) :
  P VNone ->
  (forall b, P (VBool b)) ->
  (forall n, P (VInt n)) ->
  (forall x, P (VFloat x)) ->
  (forall s, P (VStr s)) ->
  (forall items, Forall P items -> P (VList items)) ->
  (forall items, Forall (fun kv : string * PyValue => P kv.2) items ->
                 P (VDict items)) ->
  forall v, P v.
Proof.
  intros HNone HBool HInt HFloat HStr HList HDict.
  refine (fix IH (v : PyValue) : P v :=
            match v with
            | VNone => HNone
            | VBool b => HBool b
            | VInt n => HInt n
            | VFloat x => HFloat x
            | VStr s => HStr s
            | VList items =>
                HList items
                  ((fix each (l : list PyValue) : Forall P l :=
                      match l with
                      | [] => @List.Forall_nil _ P
                      | x :: l' => @List.Forall_cons _ P x l' (IH x) (each l')
                      end) items)
            | VDict items =>
                HDict items
                  ((fix each (l : list (string * PyValue))
                      : Forall (fun kv : string * PyValue => P kv.2) l :=
                      match l with
                      | [] => @List.Forall_nil _ _
                      | kv :: l' =>
                          @List.Forall_cons _ _ kv l' (IH kv.2) (each l')
                      end) items)
            end).
Qed.

Lemma uint_chars (d : Decimal.uint) :
  forallb is_int_char (list_ascii_of_string (NilEmpty.string_of_uint d)) = true.
Proof. induction d; simpl; try rewrite IHd; reflexivity. Qed.

Lemma int_literal_chars (n : Z) :
  forallb is_int_char (list_ascii_of_string (int_literal n)) = true.
Proof.
  unfold int_literal, NilZero.string_of_int, NilZero.string_of_uint.
  destruct (Z.to_int n) as [d|d]; destruct d; simpl;
    try rewrite uint_chars; reflexivity.
Qed.

Lemma int_chars_not_float (text : string) :
  forallb is_int_char (list_ascii_of_string text) = true ->
  is_float_literal text = false.
Proof.
  intros Hchars. unfold is_float_literal.
  apply andb_false_iff. right.
  induction text as [|c text IH]; [reflexivity|].
  simpl in *. apply andb_true_iff in Hchars as [Hc Htext].
  rewrite (IH Htext), orb_false_r.
  unfold is_int_char in Hc. simpl in Hc.
  unfold is_fraction_or_exponent_char.
  repeat match type of Hc with
         | (Ascii.eqb c ?k || _)%bool = true =>
             destruct (Ascii.eqb_spec c k) as [->|_]; [reflexivity|];
             simpl in Hc
         end.
  discriminate Hc.
Qed.

Lemma int_literal_read_back (n : Z) :
  option_map Z.of_int (NilZero.int_of_string (int_literal n)) = Some n.
Proof.
  unfold int_literal.
  pose proof (DecimalZ.of_to n) as Hz.
  destruct (Z.to_int n) as [d|d]; destruct d;
    first [ rewrite NilZero.isi_posnil
          | rewrite NilZero.isi_negnil
          | rewrite NilZero.isi by discriminate ];
    cbn [option_map]; f_equal; rewrite <- Hz; reflexivity.
Qed.

(** An [int] is read back from its literal. *)
Lemma scan_int_literal (n : Z) : scan_literal (int_literal n) = Some (VInt n).
Proof.
  pose proof (int_literal_chars n) as Hchars.
  pose proof (int_chars_not_float _ Hchars) as Hfloat.
  unfold scan_literal.
  repeat match goal with
         | |- context [String.eqb (int_literal n) ?k] =>
             destruct (String.eqb_spec (int_literal n) k) as [Heq|_];
             [rewrite Heq in Hchars; discriminate Hchars|]
         end.
  rewrite Hfloat.
  pose proof (int_literal_read_back n) as Hback.
  destruct (NilZero.int_of_string (int_literal n)); simpl in *;
    [injection Hback as ->; reflexivity|discriminate].
Qed.

(** A finite float is read back from its [repr]. *)
Lemma scan_float_literal (repr : string) :
  is_float_literal repr = true ->
  scan_literal repr = Some (VFloat (FloatFinite repr)).
Proof.
  intros Hfloat. unfold scan_literal.
  repeat match goal with
         | |- context [String.eqb repr ?k] =>
             destruct (String.eqb_spec repr k) as [Heq|_];
             [rewrite Heq in Hfloat; discriminate Hfloat|]
         end.
  rewrite Hfloat. reflexivity.
Qed.

Lemma dict_setitem_new (k : string) (v : PyValue)
    (d : list (string * PyValue)) :
  k ∉ map fst d -> dict_setitem k v d = (d ++ [(k, v)])%list.
Proof.
  induction d as [|[k' v'] d IH]; intros Hk; [reflexivity|].
  simpl in *. apply not_elem_of_cons in Hk as [Hne Hk].
  destruct (String.eqb_spec k k') as [->|_]; [contradiction|].
  rewrite IH by exact Hk. reflexivity.
Qed.

Lemma dict_of_pairs_distinct (pairs : list (string * PyValue)) :
  NoDup (map fst pairs) -> dict_of_pairs pairs = pairs.
Proof.
  unfold dict_of_pairs.
  assert (Hgen : forall acc,
    NoDup (map fst (acc ++ pairs)) ->
    fold_left (fun d kv => dict_setitem kv.1 kv.2 d) pairs acc
    = (acc ++ pairs)%list).
  { induction pairs as [|[k v] pairs IH]; intros acc Hnodup; simpl.
    - by rewrite app_nil_r.
    - rewrite dict_setitem_new.
      + rewrite IH; rewrite <- app_assoc; [reflexivity|exact Hnodup].
      + rewrite map_app in Hnodup. simpl in Hnodup.
        apply NoDup_app in Hnodup as (_ & Hdisjoint & _).
        intros Hin. apply (Hdisjoint k Hin). left. }
  intros Hnodup. apply (Hgen []). exact Hnodup.
Qed.

(** With [allow_nan] set the encoder refuses nothing. *)
Lemma dumps_allow_nan_total (v : PyValue) : exists doc, dumps true v = inr doc.
Proof.
  induction v as [ |b|n|x|s|items IH|items IH] using PyValue_nested_ind;
    simpl; eauto.
  - destruct x; simpl; eauto.
  - assert (Hitems : exists docs, traverse (dumps true) items = inr docs).
    { induction IH as [|v items [doc Hv] _ [docs Hitems]]; simpl; eauto.
      rewrite Hv, Hitems. eauto. }
    destruct Hitems as [docs ->]. eauto.
  - assert (Hitems : exists members,
      traverse (fun kv : string * PyValue =>
                  match dumps true kv.2 with
                  | inl e => inl e
                  | inr doc => inr (kv.1, doc)
                  end) items = inr members).
    { induction IH as [|kv items [doc Hv] _ [members Hitems]]; simpl; eauto.
      rewrite Hv, Hitems. eauto. }
    destruct Hitems as [members ->]. eauto.
Qed.

(** What the encoder writes for a well-formed value, the decoder reads
    back as that value. *)
Lemma dumps_loads (v : PyValue) :
  well_formed v = true ->
  exists doc, dumps true v = inr doc /\ loads doc = Some v.
Proof.
  induction v as [ |b|n|x|s|items IH|items IH] using PyValue_nested_ind;
    simpl; intros Hwf.
  - eauto.
  - destruct b; eauto.
  - eexists. split; [reflexivity|]. apply scan_int_literal.
  - destruct x as [ | | |repr]; simpl; eauto.
    eexists. split; [reflexivity|]. by apply scan_float_literal.
  - eauto.
  - assert (Hitems : exists docs,
      traverse (dumps true) items = inr docs /\ mapM loads docs = Some items).
    { induction IH as [|v items Hv _ IHitems]; simpl in *; [eauto|].
      apply andb_true_iff in Hwf as [Hwfv Hwfitems].
      destruct (Hv Hwfv) as (doc & -> & Hdoc).
      destruct (IHitems Hwfitems) as (docs & -> & Hdocs).
      eexists. split; [reflexivity|]. simpl. rewrite Hdoc. simpl.
      rewrite Hdocs. reflexivity. }
    destruct Hitems as (docs & -> & Hdocs).
    eexists. split; [reflexivity|]. simpl. rewrite Hdocs. reflexivity.
  - apply andb_true_iff in Hwf as [Hkeys Hwf].
    apply bool_decide_eq_true in Hkeys.
    assert (Hitems : exists members,
      traverse (fun kv : string * PyValue =>
                  match dumps true kv.2 with
                  | inl e => inl e
                  | inr doc => inr (kv.1, doc)
                  end) items = inr members /\
      mapM (fun kd : string * Doc =>
              option_map (fun v => (kd.1, v)) (loads kd.2)) members
      = Some items).
    { clear Hkeys.
      induction IH as [|[k v] items Hv _ IHitems]; simpl in *; [eauto|].
      apply andb_true_iff in Hwf as [Hwfv Hwfitems].
      destruct (Hv Hwfv) as (doc & -> & Hdoc).
      destruct (IHitems Hwfitems) as (members & -> & Hmembers).
      eexists. split; [reflexivity|]. simpl. rewrite Hdoc. simpl.
      rewrite Hmembers. reflexivity. }
    destruct Hitems as (members & -> & Hmembers).
    eexists. split; [reflexivity|]. simpl. rewrite Hmembers. simpl.
    by rewrite dict_of_pairs_distinct.
Qed.


(** The flag of line 79 is what lets these values through: without it the
    encoder refuses a body that holds one. *)
Lemma dumps_without_allow_nan (k : string) (body : list (string * PyValue)) :
  dumps false (VDict ((k, VFloat FloatNaN) :: body))
  = inl (OutOfRangeFloat FloatNaN).
Proof. reflexivity. Qed.
End json_body.


Section further_runs.
#[local] Existing Instance Stub.library.


(** An endpoint whose [application] member is a number. *)
Lemma version_answer_table_witness :
  let r := {| status_code := 200;
              content := IsJSON (JObj [("application", JNum "7")]) |} in
  status_code r < 400 /\
  (RemoteWorkspaceView.__init__ (remote := Stub.always r) "http://svc:8000"
     None Stub.empty_world).1
  = Raise (ValueError "Evidenly API not available at http://svc:8000"
             AssertionError).
Proof.
  intros r.
  assert (Hstatus : status_code r < 400) by (simpl; lia).
  split; [exact Hstatus|].
  exact (version_answer_table "http://svc:8000" None Stub.empty_world r
           Hstatus).
Defined.

(** A view that was returned, and the answer behind it. *)
Lemma init_requires_version_answer_witness :
  let remote := Stub.always Stub.version_answer in
  let run :=
    RemoteWorkspaceView.__init__ "http://svc:8000" (Some "abc")
      Stub.empty_world in
  exists view,
    run = (Ok view, run.2) /\
    exists response ms,
      server (sent Stub.empty_world)
        (outgoing Stub.storage "GET" "/api/version" None None)
      = Reply response /\
      status_code response < 400 /\
      content response = IsJSON (JObj ms) /\
      assoc "application" ms = Some (JStr EVIDENTLY_APPLICATION_NAME).
Proof.
  intros remote run.
  eexists. split; [vm_compute; reflexivity|].
  refine (init_requires_version_answer "http://svc:8000" (Some "abc")
            Stub.empty_world run.2 _ _).
  vm_compute. reflexivity.
Defined.
End further_runs.
